(** * LogDrift: a shallow embedding of the line classifier and its filter

    The development follows the three Go files of the repository:
    - [main.go]: [LogLevel], [LogEntry], [AnomalyDetector],
      [NewDetectorWithConfig], [ParseLine];
    - the configuration file: [Config], [DefaultConfig], [CompilePatterns],
      [ShouldShow], [parseMinLevel], [extractComponent];
    - the command line file: [CLIOptions], [ParseCLI], [ApplyToConfig].

    Go strings are byte sequences and are modelled by [string] (a list of
    [ascii] bytes).  Go's [int] is the 64-bit two's complement integer; it is
    modelled by [Z] with the wrap-around of [+] written out in [int_add].
    The counters of the detector are threaded through [ParseLine] as an
    explicit state.  The two regular expressions that the source compiles
    from literals are run by a backtracking search; the configured patterns
    go through the operations of the class [GoLib].

    The first part holds the definitions, the second part the properties;
    the theorems that settle the claims of the specification are marked
    C1 to C10. *)

From Stdlib Require Import ZArith Lia List Bool Ascii String.
From Stdlib Require Import DecimalString Permutation.
Import ListNotations.

Open Scope list_scope.
Open Scope Z_scope.
Open Scope string_scope.

(** ** Go's [int] *)

Module GoInt.

Definition int_min : Z := - 2 ^ 63.
Definition int_max : Z := 2 ^ 63 - 1.

Definition in_range (z : Z) : Prop := int_min <= z <= int_max.

(** Two's complement wrap-around of a mathematical integer. *)
Definition wrap (z : Z) : Z := (z + 2 ^ 63) mod 2 ^ 64 - 2 ^ 63.

(** [a + b] and [a += b] on [int]. *)
Definition int_add (a b : Z) : Z := wrap (a + b).

(** [a++] on [int]. *)
Definition incr (a : Z) : Z := int_add a 1.

End GoInt.
Export GoInt.

(** ** Bytes and the [strings] functions the program calls *)

Module GoStrings.

Definition byte (c : ascii) : N := N_of_ascii c.

Definition isUpperByte (c : ascii) : bool := ((65 <=? byte c) && (byte c <=? 90))%N.
Definition isLowerByte (c : ascii) : bool := ((97 <=? byte c) && (byte c <=? 122))%N.
Definition isDigitByte (c : ascii) : bool := ((48 <=? byte c) && (byte c <=? 57))%N.

(** ['A'..'Z'] to ['a'..'z'], every other byte unchanged. *)
Definition lowerByte (c : ascii) : ascii :=
  if isUpperByte c then ascii_of_N (byte c + 32) else c.

(** ['a'..'z'] to ['A'..'Z'], every other byte unchanged. *)
Definition upperByte (c : ascii) : ascii :=
  if isLowerByte c then ascii_of_N (byte c - 32) else c.

(** [c < utf8.RuneSelf] for every byte of the string. *)
Fixpoint isASCII (s : string) : bool :=
  match s with
  | EmptyString => true
  | String c s' => (byte c <? 128)%N && isASCII s'
  end.

Fixpoint mapBytes (f : ascii -> ascii) (s : string) : string :=
  match s with
  | EmptyString => EmptyString
  | String c s' => String (f c) (mapBytes f s')
  end.

(** [strings.HasPrefix]. *)
Fixpoint HasPrefix (s prefix : string) {struct prefix} : bool :=
  match prefix, s with
  | EmptyString, _ => true
  | String _ _, EmptyString => false
  | String p prefix', String c s' => Ascii.eqb c p && HasPrefix s' prefix'
  end.

(** [strings.Contains]: [substr] occurs in [s] as a run of bytes. *)
Fixpoint Contains (s substr : string) : bool :=
  HasPrefix s substr ||
  match s with
  | EmptyString => false
  | String _ s' => Contains s' substr
  end.

(** The longest prefix whose bytes satisfy [p], and the rest. *)
Fixpoint span (p : ascii -> bool) (s : string) : string * string :=
  match s with
  | EmptyString => (EmptyString, EmptyString)
  | String c s' =>
      if p c then let (a, b) := span p s' in (String c a, b)
      else (EmptyString, s)
  end.

(** The last byte of a string, if it has one. *)
Fixpoint lastByte (s : string) : option ascii :=
  match s with
  | EmptyString => None
  | String c EmptyString => Some c
  | String _ s' => lastByte s'
  end.

(** [s[n:]] for [n <= len(s)]. *)
Fixpoint dropBytes (n : nat) (s : string) : string :=
  match n, s with
  | O, _ => s
  | S n', String _ s' => dropBytes n' s'
  | S _, EmptyString => EmptyString
  end.

(** [slices.Contains] on a slice of strings. *)
Fixpoint slices_Contains (l : list string) (x : string) : bool :=
  match l with
  | [] => false
  | y :: l' => String.eqb y x || slices_Contains l' x
  end.

End GoStrings.
Export GoStrings.

(** ** What the program takes from Go's standard library

    The regular expression engine applied to the configured patterns, the
    Unicode case tables behind [strings.ToLower] and [strings.ToUpper] on
    strings that are not pure ASCII, [strings.TrimSpace] and the clock are
    not code of the repository: they are the operations of this class. *)

Class GoLib : Type := {
  (** a compiled [regexp.Regexp] *)
  Regexp : Type;
  (** the [error] of [regexp.Compile] *)
  CompileError : Type;
  (** [regexp.Compile] *)
  regexp_Compile : string -> Regexp + CompileError;
  (** the method [MatchString] of a compiled pattern *)
  MatchString : Regexp -> string -> bool;
  (** [strings.Map(unicode.ToLower, s)], the path of [strings.ToLower] for a
      string with a byte [>= 0x80] *)
  unicode_ToLower : string -> string;
  (** [strings.Map(unicode.ToUpper, s)] *)
  unicode_ToUpper : string -> string;
  (** [strings.TrimSpace] *)
  TrimSpace : string -> string;
  (** [time.Time] *)
  time_Time : Type
}.

Section Strings.
Context `{GoLib}.

(** [strings.ToLower]: the ASCII path is bytewise, the other path maps runes. *)
Definition ToLower (s : string) : string :=
  if isASCII s then mapBytes lowerByte s else unicode_ToLower s.

(** [strings.ToUpper]. *)
Definition ToUpper (s : string) : string :=
  if isASCII s then mapBytes upperByte s else unicode_ToUpper s.

End Strings.

(** ** The two regular expressions compiled from literals

    [regexp.MustCompile] is applied to two literals of the source.  Go's
    engine reports the leftmost match and, among the matches that start
    there, the one a backtracking search finds first: earlier alternatives
    before later ones, longer repetitions before shorter ones.  The module
    below is such a search for the operators the two literals use.  On a
    string Go's engine reads runes, but every class of the two literals is
    decided by single bytes (a byte [>= 0x80] is neither a word byte, nor a
    space, nor a bracket, nor one of the letters), so the search reads
    bytes. *)

Module Backtrack.

(** [\w]: the ASCII word bytes [0-9A-Za-z_]. *)
Definition isWordByte (c : ascii) : bool :=
  isDigitByte c || isUpperByte c || isLowerByte c || Ascii.eqb c "_".

(** [\s]: the bytes [\t\n\f\r ] (9, 10, 12, 13, 32). *)
Definition isSpaceByte (c : ascii) : bool :=
  ((byte c =? 9) || (byte c =? 10) || (byte c =? 12) || (byte c =? 13)
   || (byte c =? 32))%N.

(** [(?i)x] for a letter [x] (none of the level words has a [k] or an [s],
    the two ASCII letters with a further Unicode case variant). *)
Definition eqFold (a b : ascii) : bool := Ascii.eqb (lowerByte a) (lowerByte b).

(** [[^\]]]: every byte but the closing bracket. *)
Definition notClosing (b : ascii) : bool := negb (Ascii.eqb b "]").

(** [\b] between the byte [prev] before the position (if any) and the byte
    after it (if any): exactly one side is a word byte. *)
Definition wordBoundary (prev : option ascii) (s : string) : bool :=
  xorb (match prev with Some c => isWordByte c | None => false end)
       (match s with String c _ => isWordByte c | EmptyString => false end).

(** The expressions: the empty one, one byte of a class, a sequence, an
    alternation, [c+] for a class [c], the capturing group (each literal
    has one) and [\b]. *)
Inductive Regex : Type :=
| Empty
| Byte (p : ascii -> bool)
| Seq (a b : Regex)
| Alt (a b : Regex)
| PlusByte (p : ascii -> bool)
| Group (a : Regex)
| WordBoundary.

(** A state of the search: the bytes taken since the start of the match,
    the bytes still to read, and the text of the group. *)
Record MState : Type := mkMState {
  taken : string;
  rest : string;
  group1 : string
}.

(** The byte before the current position; [prev] is the byte before the
    start of the match. *)
Definition before (prev : option ascii) (st : MState) : option ascii :=
  match lastByte (taken st) with
  | Some c => Some c
  | None => prev
  end.

(** Taking the byte [c], with [s'] left to read. *)
Definition take (c : ascii) (s' : string) (st : MState) : MState :=
  mkMState (taken st ++ String c EmptyString) s' (group1 st).

(** [c+] on the bytes [s] still to read, followed by [k]: one byte of the
    class, then first the attempt with more bytes, then the attempt to go
    on from here. *)
Fixpoint plusK {A : Type} (p : ascii -> bool) (s : string) (st : MState)
    (k : MState -> option A) : option A :=
  match s with
  | EmptyString => None
  | String c s' =>
      if p c then
        match plusK p s' (take c s' st) k with
        | Some r => Some r
        | None => k (take c s' st)
        end
      else None
  end.

(** The expression [r] from the state [st], followed by [k]. *)
Fixpoint matchK {A : Type} (prev : option ascii) (r : Regex) (st : MState)
    (k : MState -> option A) : option A :=
  match r with
  | Empty => k st
  | Byte p =>
      match rest st with
      | String c s' => if p c then k (take c s' st) else None
      | EmptyString => None
      end
  | Seq a b => matchK prev a st (fun st' => matchK prev b st' k)
  | Alt a b =>
      match matchK prev a st k with
      | Some x => Some x
      | None => matchK prev b st k
      end
  | PlusByte p => plusK p (rest st) st k
  | Group a =>
      matchK prev a st
        (fun st' =>
           k (mkMState (taken st') (rest st')
                (dropBytes (String.length (taken st)) (taken st'))))
  | WordBoundary =>
      if wordBoundary (before prev st) (rest st) then k st else None
  end.

(** The first match that starts at the beginning of [s]: its text and the
    text of its group. *)
Definition matchAt (r : Regex) (prev : option ascii) (s : string)
  : option (list string) :=
  matchK prev r (mkMState EmptyString s EmptyString)
    (fun st => Some [taken st; group1 st]).

(** The leftmost match in [s]; [prev] is the byte before [s]. *)
Fixpoint search (r : Regex) (prev : option ascii) (s : string) : list string :=
  match matchAt r prev s with
  | Some m => m
  | None =>
      match s with
      | EmptyString => []
      | String c s' => search r (Some c) s'
      end
  end.

(** The method [FindStringSubmatch] of a compiled expression with one
    group: [nil] without a match, else the match and the group. *)
Definition FindStringSubmatch (re : Regex) (s : string) : list string :=
  search re None s.

(** [(?i)word] for a word of letters. *)
Fixpoint literalFold (word : string) : Regex :=
  match word with
  | EmptyString => Empty
  | String w word' => Seq (Byte (fun c => eqFold c w)) (literalFold word')
  end.

(** [(?i)\b(FATAL|CRITICAL|ERROR|WARN|INFO|DEBUG)\s+\[], the literal of
    [ParseLine]. *)
Definition levelPattern : Regex :=
  Seq WordBoundary
    (Seq (Group
            (Alt (literalFold "FATAL")
               (Alt (literalFold "CRITICAL")
                  (Alt (literalFold "ERROR")
                     (Alt (literalFold "WARN")
                        (Alt (literalFold "INFO") (literalFold "DEBUG")))))))
       (Seq (PlusByte isSpaceByte) (Byte (fun c => Ascii.eqb c "[")))).

(** [\[([^\]]+)\]], the literal of [extractComponent]. *)
Definition componentPattern : Regex :=
  Seq (Byte (fun c => Ascii.eqb c "["))
    (Seq (Group (PlusByte notClosing)) (Byte (fun c => Ascii.eqb c "]"))).

End Backtrack.
Export Backtrack.

(** ** The two searches in closed form

    What the backtracking search computes on the two literals, written as
    direct functions; the properties are proved on these. *)

Module Matchers.

(** [(?i)word] at the start of [s]: the bytes it matched and the rest. *)
Fixpoint litFold (word s : string) {struct word}
  : option (string * string) :=
  match word, s with
  | EmptyString, _ => Some (EmptyString, s)
  | String _ _, EmptyString => None
  | String w word', String c s' =>
      if eqFold c w then
        match litFold word' s' with
        | Some (m, rest) => Some (String c m, rest)
        | None => None
        end
      else None
  end.

(** [\s+\[] at the start of [s]: the bytes it matched.  The repetition is
    greedy, and giving a space back never helps, as the next byte must be
    the bracket. *)
Definition spacesBracket (s : string) : option string :=
  match span isSpaceByte s with
  | (EmptyString, _) => None
  | (ws, String c _) => if Ascii.eqb c "[" then Some (ws ++ "[") else None
  | (_, EmptyString) => None
  end.

(** The alternatives of the group, in the order of the source. *)
Definition levelWords : list string :=
  ["FATAL"; "CRITICAL"; "ERROR"; "WARN"; "INFO"; "DEBUG"].

(** [(FATAL|CRITICAL|...)\s+\[] at the start of [s], the alternatives tried
    in order: the whole match and the text of the group. *)
Fixpoint groupAt (words : list string) (s : string) : option (list string) :=
  match words with
  | [] => None
  | w :: words' =>
      match litFold w s with
      | Some (tok, rest) =>
          match spacesBracket rest with
          | Some tail => Some [tok ++ tail; tok]
          | None => groupAt words' s
          end
      | None => groupAt words' s
      end
  end.

(** The search for the leftmost match; [prev] is the byte before [s]. *)
Fixpoint findLevel (prev : option ascii) (s : string) : list string :=
  match (if wordBoundary prev s then groupAt levelWords s else None) with
  | Some m => m
  | None =>
      match s with
      | EmptyString => []
      | String c s' => findLevel (Some c) s'
      end
  end.

(** [FindStringSubmatch] of [levelPattern] in closed form. *)
Definition levelPattern_FindStringSubmatch (line : string) : list string :=
  findLevel None line.

(** [\[([^\]]+)\]] at the start of [s].  The class takes every byte but the
    closing bracket, so the greedy repetition stops at the first closing
    bracket or at the end of the string, where nothing shorter matches
    either. *)
Definition componentAt (s : string) : option (list string) :=
  match s with
  | String c rest =>
      if Ascii.eqb c "[" then
        match span notClosing rest with
        | (EmptyString, _) => None
        | (body, String _ _) => Some ["[" ++ body ++ "]"; body]
        | (_, EmptyString) => None
        end
      else None
  | EmptyString => None
  end.

Fixpoint findComponent (s : string) : list string :=
  match componentAt s with
  | Some m => m
  | None =>
      match s with
      | EmptyString => []
      | String _ s' => findComponent s'
      end
  end.

(** [FindStringSubmatch] of [componentPattern] in closed form. *)
Definition componentPattern_FindStringSubmatch (line : string) : list string :=
  findComponent line.

End Matchers.
Export Matchers.

(** ** [LogLevel] and [Config] *)

(** [type LogLevel int] with the constants [DEBUG = iota], [INFO], [WARN],
    [ERROR], [FATAL]. *)
Inductive LogLevel : Type := DEBUG | INFO | WARN | ERROR | FATAL.

(** The integer behind a level, which [<] and [>=] compare. *)
Definition LogLevel_int (l : LogLevel) : Z :=
  match l with
  | DEBUG => 0
  | INFO => 1
  | WARN => 2
  | ERROR => 3
  | FATAL => 4
  end.

(** [func (l LogLevel) String() string]. *)
Definition LogLevel_String (l : LogLevel) : string :=
  match l with
  | FATAL => "FATAL"
  | ERROR => "ERROR"
  | WARN => "WARN"
  | INFO => "INFO"
  | DEBUG => "DEBUG"
  end.

(** [type Config struct].  [CustomPatterns] is a [map[string]string] that no
    function of the program reads; it is kept as an association list. *)
Record Config : Type := mkConfig {
  ErrorPatterns : list string;
  SlowPatterns : list string;
  SuspiciousPatterns : list string;
  CustomPatterns : list (string * string);
  AnomalyThreshold : Z;
  SlowThresholdMs : Z;
  ShowDebug : bool;
  ShowInfo : bool;
  ColorOutput : bool;
  CompactOutput : bool;
  IncludeComponents : list string;
  ExcludeComponents : list string;
  MinLevel : string
}.

(** Assignments to single fields of a [Config]. *)
Definition set_ShowDebug (v : bool) (c : Config) : Config :=
  mkConfig (ErrorPatterns c) (SlowPatterns c) (SuspiciousPatterns c)
    (CustomPatterns c) (AnomalyThreshold c) (SlowThresholdMs c)
    v (ShowInfo c) (ColorOutput c) (CompactOutput c)
    (IncludeComponents c) (ExcludeComponents c) (MinLevel c).

Definition set_ShowInfo (v : bool) (c : Config) : Config :=
  mkConfig (ErrorPatterns c) (SlowPatterns c) (SuspiciousPatterns c)
    (CustomPatterns c) (AnomalyThreshold c) (SlowThresholdMs c)
    (ShowDebug c) v (ColorOutput c) (CompactOutput c)
    (IncludeComponents c) (ExcludeComponents c) (MinLevel c).

Definition set_ColorOutput (v : bool) (c : Config) : Config :=
  mkConfig (ErrorPatterns c) (SlowPatterns c) (SuspiciousPatterns c)
    (CustomPatterns c) (AnomalyThreshold c) (SlowThresholdMs c)
    (ShowDebug c) (ShowInfo c) v (CompactOutput c)
    (IncludeComponents c) (ExcludeComponents c) (MinLevel c).

Definition set_CompactOutput (v : bool) (c : Config) : Config :=
  mkConfig (ErrorPatterns c) (SlowPatterns c) (SuspiciousPatterns c)
    (CustomPatterns c) (AnomalyThreshold c) (SlowThresholdMs c)
    (ShowDebug c) (ShowInfo c) (ColorOutput c) v
    (IncludeComponents c) (ExcludeComponents c) (MinLevel c).

Definition set_IncludeComponents (v : list string) (c : Config) : Config :=
  mkConfig (ErrorPatterns c) (SlowPatterns c) (SuspiciousPatterns c)
    (CustomPatterns c) (AnomalyThreshold c) (SlowThresholdMs c)
    (ShowDebug c) (ShowInfo c) (ColorOutput c) (CompactOutput c)
    v (ExcludeComponents c) (MinLevel c).

Definition set_MinLevel (v : string) (c : Config) : Config :=
  mkConfig (ErrorPatterns c) (SlowPatterns c) (SuspiciousPatterns c)
    (CustomPatterns c) (AnomalyThreshold c) (SlowThresholdMs c)
    (ShowDebug c) (ShowInfo c) (ColorOutput c) (CompactOutput c)
    (IncludeComponents c) (ExcludeComponents c) v.

(** [func DefaultConfig() *Config]. *)
Definition DefaultConfig : Config := {|
  ErrorPatterns := [
    "(?i)(error|exception|fatal|panic|traceback)";
    "5\d{2}\s";
    "(?i)(failed|failure|timeout)";
    "(?i)(connection refused|broken pipe)";
    "(?i)(out of memory|oom)";
    "(?i)(segmentation fault|core dump)" ];
  SlowPatterns := [
    "(?i)(\d+(?:\.\d+)?)(ms|s)\s.*?(slow|timeout)";
    "response_time[=:]\s*([5-9]\d{2,}|\d{4,})";
    "latency[=:]\s*([5-9]\d{2,}|\d{4,})" ];
  SuspiciousPatterns := [
    "(?i)(DROP|REJECT|blocked?|denied|unauthorized)";
    "(?i)(brute.?force|injection|xss|csrf)";
    "(?i)(malware|virus|exploit)" ];
  CustomPatterns := [];
  AnomalyThreshold := 40;
  SlowThresholdMs := 500;
  ShowDebug := false;
  ShowInfo := false;
  ColorOutput := true;
  CompactOutput := false;
  IncludeComponents := [];
  ExcludeComponents := [];
  MinLevel := "WARN"
|}.

(** [func (c *Config) parseMinLevel() LogLevel]. *)
Definition parseMinLevel (c : Config) : LogLevel :=
  if MinLevel c =? "FATAL" then FATAL
  else if MinLevel c =? "ERROR" then ERROR
  else if MinLevel c =? "WARN" then WARN
  else if MinLevel c =? "INFO" then INFO
  else DEBUG.

(** [func extractComponent(line string) string]. *)
Definition extractComponent (line : string) : string :=
  let re := componentPattern in
  let matches := FindStringSubmatch re line in
  if (Z.of_nat (List.length matches) >? 1)%Z then nth 1 matches "" else "".

(** ** Command-line options *)

(** [type CLIOptions struct]; the record lives in a module of its own
    because three of its fields have the names of [Config] fields. *)
Module CLIOptions.

Record t : Type := mk {
  ConfigFile : string;
  ShowAll : bool;
  ShowDebug : bool;
  ShowInfo : bool;
  NoColor : bool;
  Compact : bool;
  Component : string;
  MinLevel : string;
  OnlyAnomalies : bool;
  GenerateConfig : bool;
  Version : bool
}.

End CLIOptions.

(** One flag given on the command line, with the value the [flag] package
    hands to the variable registered under that name (a Boolean flag given
    without a value carries [true]). *)
Inductive Flag : Type :=
| flag_config (v : string)
| flag_all (v : bool)
| flag_debug (v : bool)
| flag_info (v : bool)
| flag_no_color (v : bool)
| flag_compact (v : bool)
| flag_component (v : string)
| flag_min_level (v : string)
| flag_anomalies_only (v : bool)
| flag_generate_config (v : bool)
| flag_version (v : bool).

(** The variables after the eleven registrations of [ParseCLI]: each holds
    the default given to [flag.StringVar] or [flag.BoolVar]. *)
Definition registered : CLIOptions.t :=
  CLIOptions.mk "" false false false false false "" "WARN" false false false.

(** [flag.Parse] meeting one flag: the variable of that flag is assigned. *)
Definition setFlag (o : CLIOptions.t) (f : Flag) : CLIOptions.t :=
  let '(CLIOptions.mk cf al de inf nc co cm ml oa gc ve) := o in
  match f with
  | flag_config v => CLIOptions.mk v al de inf nc co cm ml oa gc ve
  | flag_all v => CLIOptions.mk cf v de inf nc co cm ml oa gc ve
  | flag_debug v => CLIOptions.mk cf al v inf nc co cm ml oa gc ve
  | flag_info v => CLIOptions.mk cf al de v nc co cm ml oa gc ve
  | flag_no_color v => CLIOptions.mk cf al de inf v co cm ml oa gc ve
  | flag_compact v => CLIOptions.mk cf al de inf nc v cm ml oa gc ve
  | flag_component v => CLIOptions.mk cf al de inf nc co v ml oa gc ve
  | flag_min_level v => CLIOptions.mk cf al de inf nc co cm v oa gc ve
  | flag_anomalies_only v => CLIOptions.mk cf al de inf nc co cm ml v gc ve
  | flag_generate_config v => CLIOptions.mk cf al de inf nc co cm ml oa v ve
  | flag_version v => CLIOptions.mk cf al de inf nc co cm ml oa gc v
  end.

(** [func ParseCLI() *CLIOptions], on the flags of the command line in the
    order they were given. *)
Definition ParseCLI (args : list Flag) : CLIOptions.t :=
  fold_left setFlag args registered.

(** [func (o *CLIOptions) ApplyToConfig(cfg *Config)]; the updated [Config]
    is returned. *)
Definition ApplyToConfig (o : CLIOptions.t) (cfg : Config) : Config :=
  let cfg :=
    if CLIOptions.ShowAll o then
      set_MinLevel "DEBUG" (set_ShowInfo true (set_ShowDebug true cfg))
    else cfg in
  let cfg :=
    if CLIOptions.ShowDebug o then
      let cfg := set_ShowDebug true cfg in
      if (MinLevel cfg =? "INFO") || (MinLevel cfg =? "WARN")
      then set_MinLevel "DEBUG" cfg else cfg
    else cfg in
  let cfg :=
    if CLIOptions.ShowInfo o then
      let cfg := set_ShowInfo true cfg in
      if MinLevel cfg =? "WARN" then set_MinLevel "INFO" cfg else cfg
    else cfg in
  let cfg := if CLIOptions.NoColor o then set_ColorOutput false cfg else cfg in
  let cfg := if CLIOptions.Compact o then set_CompactOutput true cfg else cfg in
  let cfg :=
    if negb (CLIOptions.Component o =? "")
    then set_IncludeComponents [CLIOptions.Component o] cfg else cfg in
  let cfg :=
    if negb (CLIOptions.MinLevel o =? "")
    then set_MinLevel (CLIOptions.MinLevel o) cfg else cfg in
  cfg.

(** ** The detector *)

Section Detector.
Context `{GoLib}.

(** [type LogEntry struct]. *)
Record LogEntry : Type := mkLogEntry {
  Timestamp : time_Time;
  Level : LogLevel;
  Message : string;
  Raw : string;
  IsAnomaly : bool;
  Score : Z
}.

(** [type AnomalyDetector struct].  [config] is a pointer in the source;
    nothing writes through it once the detector exists, so the detector
    holds the value. *)
Record AnomalyDetector : Type := mkAnomalyDetector {
  errorPatterns : list Regexp;
  slowPatterns : list Regexp;
  suspiciousIPs : list Regexp;
  errorKeywords : list string;
  lineCount : Z;
  errorCount : Z;
  warnCount : Z;
  anomalyCount : Z;
  startTime : time_Time;
  config : Config
}.

(** One of the three loops of [CompilePatterns]: [regexes] is the slice
    built so far; the first pattern that does not compile ends the loop
    with its error. *)
Fixpoint compileLoop (patterns : list string) (regexes : list Regexp)
  : list Regexp + CompileError :=
  match patterns with
  | [] => inl regexes
  | pattern :: patterns' =>
      match regexp_Compile pattern with
      | inr err => inr err
      | inl re => compileLoop patterns' (regexes ++ [re])%list
      end
  end.

(** [func (c *Config) CompilePatterns()]: the three slices and the error
    ([None] for [nil]); a [nil] slice is the empty list. *)
Definition CompilePatterns (c : Config)
  : list Regexp * list Regexp * list Regexp * option CompileError :=
  match compileLoop (ErrorPatterns c) [] with
  | inr err => ([], [], [], Some err)
  | inl errorRegexes =>
      match compileLoop (SlowPatterns c) [] with
      | inr err => ([], [], [], Some err)
      | inl slowRegexes =>
          match compileLoop (SuspiciousPatterns c) [] with
          | inr err => ([], [], [], Some err)
          | inl suspiciousRegexes =>
              (errorRegexes, slowRegexes, suspiciousRegexes, None)
          end
      end
  end.

(** [func NewDetectorWithConfig(cfg *Config) *AnomalyDetector], at clock
    reading [now]: the detector, and the error reported in the warning
    written to standard error, if there is one. *)
Definition NewDetectorWithConfig (now : time_Time) (cfg : Config)
  : AnomalyDetector * option CompileError :=
  let '(errorRegexes, slowRegexes, suspiciousRegexes, err) :=
    CompilePatterns cfg in
  let '(errorRegexes, slowRegexes, suspiciousRegexes) :=
    match err with
    | Some _ => ([], [], [])
    | None => (errorRegexes, slowRegexes, suspiciousRegexes)
    end in
  ({| errorPatterns := errorRegexes;
      slowPatterns := slowRegexes;
      suspiciousIPs := suspiciousRegexes;
      errorKeywords :=
        ["error"; "exception"; "fatal"; "panic"; "failed"; "timeout";
         "refused"; "denied"; "invalid"; "corrupt"];
      lineCount := 0;
      errorCount := 0;
      warnCount := 0;
      anomalyCount := 0;
      startTime := now;
      config := cfg |}, err).

(** Assignments to the fields [ParseLine] writes. *)
Definition set_Level (l : LogLevel) (e : LogEntry) : LogEntry :=
  mkLogEntry (Timestamp e) l (Message e) (Raw e) (IsAnomaly e) (Score e).

Definition add_Score (n : Z) (e : LogEntry) : LogEntry :=
  mkLogEntry (Timestamp e) (Level e) (Message e) (Raw e) (IsAnomaly e)
    (int_add (Score e) n).

Definition set_IsAnomaly (b : bool) (e : LogEntry) : LogEntry :=
  mkLogEntry (Timestamp e) (Level e) (Message e) (Raw e) b (Score e).

Definition set_Message (m : string) (e : LogEntry) : LogEntry :=
  mkLogEntry (Timestamp e) (Level e) m (Raw e) (IsAnomaly e) (Score e).

Definition incr_lineCount (d : AnomalyDetector) : AnomalyDetector :=
  mkAnomalyDetector (errorPatterns d) (slowPatterns d) (suspiciousIPs d)
    (errorKeywords d) (incr (lineCount d)) (errorCount d) (warnCount d)
    (anomalyCount d) (startTime d) (config d).

Definition incr_errorCount (d : AnomalyDetector) : AnomalyDetector :=
  mkAnomalyDetector (errorPatterns d) (slowPatterns d) (suspiciousIPs d)
    (errorKeywords d) (lineCount d) (incr (errorCount d)) (warnCount d)
    (anomalyCount d) (startTime d) (config d).

Definition incr_warnCount (d : AnomalyDetector) : AnomalyDetector :=
  mkAnomalyDetector (errorPatterns d) (slowPatterns d) (suspiciousIPs d)
    (errorKeywords d) (lineCount d) (errorCount d) (incr (warnCount d))
    (anomalyCount d) (startTime d) (config d).

Definition incr_anomalyCount (d : AnomalyDetector) : AnomalyDetector :=
  mkAnomalyDetector (errorPatterns d) (slowPatterns d) (suspiciousIPs d)
    (errorKeywords d) (lineCount d) (errorCount d) (warnCount d)
    (incr (anomalyCount d)) (startTime d) (config d).

(** The [switch levelStr] of the structured branch. *)
Definition structuredLevel (levelStr : string)
    (d : AnomalyDetector) (entry : LogEntry) : AnomalyDetector * LogEntry :=
  if (levelStr =? "FATAL") || (levelStr =? "CRITICAL") then
    (incr_errorCount d, add_Score 100 (set_Level FATAL entry))
  else if levelStr =? "ERROR" then
    (incr_errorCount d, add_Score 50 (set_Level ERROR entry))
  else if levelStr =? "WARN" then
    (incr_warnCount d, add_Score 20 (set_Level WARN entry))
  else if levelStr =? "INFO" then
    (d, set_Level INFO entry)
  else
    (d, set_Level DEBUG entry).

(** The [switch] of the fallback branch: the first case that holds. *)
Definition keywordLevel (lineLower : string)
    (d : AnomalyDetector) (entry : LogEntry) : AnomalyDetector * LogEntry :=
  if Contains lineLower "fatal" || Contains lineLower "critical" then
    (incr_errorCount d, add_Score 100 (set_Level FATAL entry))
  else if Contains lineLower "error" && negb (Contains lineLower "errors=0") then
    (incr_errorCount d, add_Score 50 (set_Level ERROR entry))
  else if Contains lineLower "warn" then
    (incr_warnCount d, add_Score 20 (set_Level WARN entry))
  else if Contains lineLower "info" then
    (d, set_Level INFO entry)
  else
    (d, set_Level DEBUG entry).

(** One of the three [for _, pattern := range ...] loops, adding [weight]
    for each pattern that matches. *)
Definition patternLoop (weight : Z) (patterns : list Regexp) (line : string)
    (entry : LogEntry) : LogEntry :=
  fold_left
    (fun entry pattern =>
       if MatchString pattern line
       then set_IsAnomaly true (add_Score weight entry)
       else entry)
    patterns entry.

(** [func (d *AnomalyDetector) ParseLine(line string) LogEntry], at clock
    reading [now]: the detector after the call and the entry returned. *)
Definition ParseLine (now : time_Time) (d : AnomalyDetector) (line : string)
  : AnomalyDetector * LogEntry :=
  let d := incr_lineCount d in
  let entry :=
    {| Raw := line; Timestamp := now; Score := 0;
       Level := DEBUG; Message := ""; IsAnomaly := false |} in
  let lineLower := ToLower line in
  let matches := FindStringSubmatch levelPattern line in
  let '(d, entry) :=
    if (Z.of_nat (List.length matches) >? 1)%Z then
      structuredLevel (ToUpper (nth 1 matches "")) d entry
    else
      keywordLevel lineLower d entry in
  let entry := patternLoop 30 (errorPatterns d) line entry in
  let entry := patternLoop 25 (slowPatterns d) line entry in
  let entry := patternLoop 40 (suspiciousIPs d) line entry in
  let '(d, entry) :=
    if (Score entry >=? AnomalyThreshold (config d))%Z then
      (incr_anomalyCount d, set_IsAnomaly true entry)
    else (d, entry) in
  let entry := set_Message (TrimSpace line) entry in
  (d, entry).

(** The calls of [ParseLine] made by the loop of [main], one per line read,
    each with its clock reading: the detector after the last call. *)
Definition parseLines (d : AnomalyDetector) (input : list (time_Time * string))
  : AnomalyDetector :=
  fold_left (fun d tl => fst (ParseLine (fst tl) d (snd tl))) input d.

(** [func (c *Config) ShouldShow(entry LogEntry) bool]. *)
Definition ShouldShow (c : Config) (entry : LogEntry) : bool :=
  let minLevel := parseMinLevel c in
  if (LogLevel_int (Level entry) <? LogLevel_int minLevel)%Z then false
  else
    let component := extractComponent (Raw entry) in
    let excluded := negb (slices_Contains (ExcludeComponents c) component) in
    if (Z.of_nat (List.length (IncludeComponents c)) >? 0)%Z then
      let found := slices_Contains (IncludeComponents c) component in
      if negb found then false else excluded
    else excluded.

End Detector.

(** ** An instance to run the definitions on

    A small engine for patterns without metacharacters, which match as
    substrings; it refuses every other pattern.  Case mapping outside ASCII
    leaves the bytes alone, and trimming removes the ASCII white space. *)

Module LiteralEngine.

Definition isMeta (c : ascii) : bool :=
  Contains "\.+*?()|[]{}^$" (String c EmptyString).

Fixpoint isLiteral (p : string) : bool :=
  match p with
  | EmptyString => true
  | String c p' => negb (isMeta c) && isLiteral p'
  end.

Definition compile (p : string) : string + string :=
  if isLiteral p then inl p else inr ("error parsing regexp: " ++ p).

Definition isTrimByte (c : ascii) : bool :=
  isSpaceByte c || (byte c =? 11)%N.

Fixpoint trimRight (s : string) : string :=
  match s with
  | EmptyString => EmptyString
  | String c s' =>
      match trimRight s' with
      | EmptyString => if isTrimByte c then EmptyString else String c EmptyString
      | t => String c t
      end
  end.

Definition trim (s : string) : string := trimRight (snd (span isTrimByte s)).

Definition lib : GoLib := {|
  Regexp := string;
  CompileError := string;
  regexp_Compile := compile;
  MatchString := fun re s => Contains s re;
  unicode_ToLower := mapBytes lowerByte;
  unicode_ToUpper := mapBytes upperByte;
  TrimSpace := trim;
  time_Time := Z
|}.

(** A configuration with literal patterns, and its detector. *)
Definition literalConfig : Config := {|
  ErrorPatterns := ["timeout"; "failed"];
  SlowPatterns := ["slow"];
  SuspiciousPatterns := ["denied"];
  CustomPatterns := [];
  AnomalyThreshold := 40;
  SlowThresholdMs := 500;
  ShowDebug := false;
  ShowInfo := false;
  ColorOutput := true;
  CompactOutput := false;
  IncludeComponents := ["db"];
  ExcludeComponents := ["db"; "cache"];
  MinLevel := "verbose"
|}.

Definition literalDetector : @AnomalyDetector lib :=
  fst (@NewDetectorWithConfig lib 0%Z literalConfig).

(** The same configuration with a pattern that does not compile. *)
Definition brokenConfig : Config := {|
  ErrorPatterns := ["timeout"; "failed"];
  SlowPatterns := ["slow"; "("];
  SuspiciousPatterns := ["denied"];
  CustomPatterns := [];
  AnomalyThreshold := 40;
  SlowThresholdMs := 500;
  ShowDebug := false;
  ShowInfo := false;
  ColorOutput := true;
  CompactOutput := false;
  IncludeComponents := [];
  ExcludeComponents := [];
  MinLevel := "WARN"
|}.

End LiteralEngine.

(** ** Notions on strings used to state the properties

    [structuredTokenAt] and [bracketedAt] say in terms of the line itself
    what the specification calls a structured token and a bracketed
    component; they are not read off the matchers. *)

(** Every byte, for properties of bytes checked by enumeration. *)
Definition allAscii : list ascii := map ascii_of_nat (seq 0 256).

Fixpoint allBytes (p : ascii -> bool) (s : string) : bool :=
  match s with
  | EmptyString => true
  | String c s' => p c && allBytes p s'
  end.

(** The two strings are equal up to the case of ASCII letters. *)
Fixpoint EqualFold (a b : string) : bool :=
  match a, b with
  | EmptyString, EmptyString => true
  | String x a', String y b' => eqFold x y && EqualFold a' b'
  | _, _ => false
  end.

(** The level a level word stands for. *)
Definition wordLevel (word : string) : option LogLevel :=
  if word =? "FATAL" then Some FATAL
  else if word =? "CRITICAL" then Some FATAL
  else if word =? "ERROR" then Some ERROR
  else if word =? "WARN" then Some WARN
  else if word =? "INFO" then Some INFO
  else if word =? "DEBUG" then Some DEBUG
  else None.

(** The line has, right after [pre], a structured token for level [l]:
    the bytes [tok] spell a level word in some letter case, they do not
    continue a word of [pre], and white space and an opening bracket
    follow. *)
Definition structuredTokenAt (line pre tok : string) (l : LogLevel) : Prop :=
  match lastByte pre with
  | Some c => isWordByte c = false
  | None => True
  end /\
  wordLevel (mapBytes upperByte tok) = Some l /\
  exists ws post,
    ws <> "" /\ allBytes isSpaceByte ws = true /\
    line = pre ++ tok ++ ws ++ "[" ++ post.

(** The line has, right after [pre], the bracketed text [comp]: an opening
    bracket, the non-empty [comp] without a closing bracket, and a closing
    bracket. *)
Definition bracketedAt (line pre comp : string) : Prop :=
  comp <> "" /\
  allBytes notClosing comp = true /\
  exists post, line = pre ++ "[" ++ comp ++ "]" ++ post.

(** ** Notions used to state the properties

    [levelBase], [matchCount] and [fallbackRules] follow the wording of the
    specification; [levelStage] names the first stage of [ParseLine]. *)

Section Notions.
Context `{GoLib}.

(** The contribution of the level to the score. *)
Definition levelBase (l : LogLevel) : Z :=
  match l with
  | DEBUG => 0
  | INFO => 0
  | WARN => 20
  | ERROR => 50
  | FATAL => 100
  end.

(** The number of patterns of a list that match the line, each pattern of
    the list counted once. *)
Definition matchCount (patterns : list Regexp) (line : string) : Z :=
  Z.of_nat (List.length (filter (fun p => MatchString p line) patterns)).

(** Some pattern of the list matches the line. *)
Definition anyMatch (patterns : list Regexp) (line : string) : bool :=
  existsb (fun p => MatchString p line) patterns.

(** What the classification of the level leaves alone in the detector. *)
Definition sameSetup (d d' : AnomalyDetector) : Prop :=
  errorPatterns d' = errorPatterns d /\
  slowPatterns d' = slowPatterns d /\
  suspiciousIPs d' = suspiciousIPs d /\
  config d' = config d /\
  anomalyCount d' = anomalyCount d.

(** What a level switch establishes on an entry whose score is still 0. *)
Definition levelScored (d : AnomalyDetector) (e : LogEntry)
    (r : AnomalyDetector * LogEntry) : Prop :=
  Score (snd r) = levelBase (Level (snd r)) /\
  IsAnomaly (snd r) = IsAnomaly e /\
  sameSetup d (fst r).

(** The entry [ParseLine] starts from, and its first stage: the level
    switch of the structured or of the fallback branch. *)
Definition entry0 (now : time_Time) (line : string) : LogEntry :=
  {| Timestamp := now; Level := DEBUG; Message := ""; Raw := line;
     IsAnomaly := false; Score := 0 |}.

Definition levelStage (now : time_Time) (d : AnomalyDetector) (line : string)
  : AnomalyDetector * LogEntry :=
  if (Z.of_nat (List.length (FindStringSubmatch levelPattern line)) >? 1)%Z
  then structuredLevel
         (ToUpper (nth 1 (FindStringSubmatch levelPattern line) ""))
         (incr_lineCount d) (entry0 now line)
  else keywordLevel (ToLower line) (incr_lineCount d) (entry0 now line).

(** A keyword occurs in the line in some letter case: it occurs in the
    lower-cased line. *)
Definition containsFold (line keyword : string) : bool :=
  Contains (ToLower line) keyword.

(** The fallback rules as a list of conditions on the line with their
    outcomes, in order of priority. *)
Definition fallbackRules : list ((string -> bool) * LogLevel) :=
  [ (fun line => containsFold line "fatal" || containsFold line "critical",
     FATAL);
    (fun line => containsFold line "error"
                 && negb (containsFold line "errors=0"),
     ERROR);
    (fun line => containsFold line "warn", WARN);
    (fun line => containsFold line "info", INFO) ].

(** The outcome of the first rule whose condition holds. *)
Fixpoint firstMatch {A B : Type} (rules : list ((A -> bool) * B))
    (default : B) (x : A) : B :=
  match rules with
  | [] => default
  | (condition, outcome) :: rules' =>
      if condition x then outcome else firstMatch rules' default x
  end.

End Notions.

(** ** Rendering, and the loop of [main] *)

Module Render.

(** The escape byte, [\033] in the source. *)
Definition ESC : ascii := ascii_of_nat 27.

Definition newline : string := String (ascii_of_nat 10) EmptyString.

(** The verb [%d] of [fmt.Printf] on an [int]: the decimal digits, after a
    minus sign for a negative number. *)
Definition formatInt (z : Z) : string := NilEmpty.string_of_int (Z.to_int z).

(** [func (l LogLevel) ColorCode() string]. *)
Definition LogLevel_ColorCode (l : LogLevel) : string :=
  match l with
  | FATAL => String ESC "[1;35m"
  | ERROR => String ESC "[1;31m"
  | WARN => String ESC "[1;33m"
  | INFO => String ESC "[1;32m"
  | DEBUG => String ESC "[0;37m"
  end.

End Render.
Export Render.

Section Program.
Context `{GoLib}.

(** [func NewDetector() *AnomalyDetector], at clock reading [now]. *)
Definition NewDetector (now : time_Time)
  : AnomalyDetector * option CompileError :=
  NewDetectorWithConfig now DefaultConfig.

(** [func (e LogEntry) Print(cfg *Config)]: the bytes written to standard
    output by its one or two calls of [fmt.Printf]. *)
Definition Print (e : LogEntry) (cfg : Config) : string :=
  let reset := String ESC "[0m" in
  let levelColor := LogLevel_ColorCode (Level e) in
  let '(levelColor, reset) :=
    if negb (ColorOutput cfg) then (EmptyString, EmptyString)
    else (levelColor, reset) in
  let banner :=
    if IsAnomaly e && negb (CompactOutput cfg) then
      if ColorOutput cfg then
        String ESC "[41mANOMALY (score: " ++ formatInt (Score e) ++ ")"
          ++ String ESC "[0m "
      else "ANOMALY (score: " ++ formatInt (Score e) ++ ") "
    else EmptyString in
  banner ++ levelColor ++ "[" ++ LogLevel_String (Level e) ++ "]" ++ reset
    ++ " " ++ Message e ++ newline.

(** The configuration [main] works with: the defaults, or the configuration
    [LoadConfig] returned for [--config], with the command-line options
    applied on top. *)
Definition activeConfig (opts : CLIOptions.t) (loaded : option Config)
  : Config :=
  let cfg := DefaultConfig in
  let cfg := match loaded with Some loadedCfg => loadedCfg | None => cfg end in
  ApplyToConfig opts cfg.

(** The body of the loop of [main] for one line read at clock reading
    [fst tl]: the detector, and the entries handed to [Print] so far. *)
Definition mainStep (opts : CLIOptions.t) (cfg : Config)
    (state : AnomalyDetector * list LogEntry) (tl : time_Time * string)
  : AnomalyDetector * list LogEntry :=
  let '(detector, printed) := state in
  let '(detector, entry) := ParseLine (fst tl) detector (snd tl) in
  if negb (ShouldShow cfg entry) then (detector, printed)
  else if CLIOptions.OnlyAnomalies opts then
    if IsAnomaly entry then (detector, printed ++ [entry])%list
    else (detector, printed)
  else
    if IsAnomaly entry
       || (LogLevel_int (Level entry) >=? LogLevel_int WARN)%Z
    then (detector, printed ++ [entry])%list
    else (detector, printed).

(** The loop [for scanner.Scan()] of [main] over the lines the scanner
    delivers. *)
Definition mainLoop (opts : CLIOptions.t) (cfg : Config)
    (detector : AnomalyDetector) (input : list (time_Time * string))
  : AnomalyDetector * list LogEntry :=
  fold_left (mainStep opts cfg) input (detector, []).

(** What the loop writes to standard output. *)
Definition stdoutOf (cfg : Config) (printed : list LogEntry) : string :=
  String.concat EmptyString (map (fun e => Print e cfg) printed).

End Program.

(** ** Notions used to state further properties *)

(** ERROR and FATAL, the levels counted in [errorCount]. *)
Definition isErrorLevel (l : LogLevel) : bool :=
  match l with
  | ERROR | FATAL => true
  | _ => false
  end.

Definition isWarnLevel (l : LogLevel) : bool :=
  match l with
  | WARN => true
  | _ => false
  end.

(** The name under which a flag is registered. *)
Definition flagName (f : Flag) : string :=
  match f with
  | flag_config _ => "config"
  | flag_all _ => "all"
  | flag_debug _ => "debug"
  | flag_info _ => "info"
  | flag_no_color _ => "no-color"
  | flag_compact _ => "compact"
  | flag_component _ => "component"
  | flag_min_level _ => "min-level"
  | flag_anomalies_only _ => "anomalies-only"
  | flag_generate_config _ => "generate-config"
  | flag_version _ => "version"
  end.

(** The value of the last [--min-level] among the flags, if there is one. *)
Fixpoint lastMinLevel (args : list Flag) : option string :=
  match args with
  | [] => None
  | f :: args' =>
      match lastMinLevel args' with
      | Some v => Some v
      | None => match f with flag_min_level v => Some v | _ => None end
      end
  end.

(** No byte of the string is the escape byte. *)
Definition noEscape (s : string) : bool :=
  allBytes (fun c => negb (Ascii.eqb c ESC)) s.

(** The minimum level [ApplyToConfig] leaves in a configuration whose
    minimum level was [m]. *)
Definition appliedMinLevel (o : CLIOptions.t) (m : string) : string :=
  let m := if CLIOptions.ShowAll o then "DEBUG" else m in
  let m :=
    if CLIOptions.ShowDebug o
    then (if (m =? "INFO") || (m =? "WARN") then "DEBUG" else m)
    else m in
  let m :=
    if CLIOptions.ShowInfo o
    then (if m =? "WARN" then "INFO" else m)
    else m in
  if negb (CLIOptions.MinLevel o =? "") then CLIOptions.MinLevel o else m.

Section MoreNotions.
Context `{GoLib}.

(** The entries returned by the successive calls of [ParseLine] in a run
    over the input. *)
Fixpoint runEntries (d : AnomalyDetector) (input : list (time_Time * string))
  : list LogEntry :=
  match input with
  | [] => []
  | tl :: input' =>
      snd (ParseLine (fst tl) d (snd tl))
        :: runEntries (fst (ParseLine (fst tl) d (snd tl))) input'
  end.

(** How many entries of a list satisfy a condition. *)
Definition countEntries (p : LogEntry -> bool) (entries : list LogEntry) : Z :=
  Z.of_nat (List.length (filter p entries)).

(** The decision of the loop of [main] to print an entry that the filter
    has let through. *)
Definition wanted (opts : CLIOptions.t) (entry : LogEntry) : bool :=
  if CLIOptions.OnlyAnomalies opts then IsAnomaly entry
  else IsAnomaly entry || (LogLevel_int (Level entry) >=? LogLevel_int WARN)%Z.

(** What a level switch does to the counters, in terms of the level it
    sets. *)
Definition levelCounted (d : AnomalyDetector)
    (r : AnomalyDetector * LogEntry) : Prop :=
  lineCount (fst r) = lineCount d /\
  errorCount (fst r) =
    (if isErrorLevel (Level (snd r)) then incr (errorCount d)
     else errorCount d) /\
  warnCount (fst r) =
    (if isWarnLevel (Level (snd r)) then incr (warnCount d)
     else warnCount d).

(** The error of the first pattern of the list that does not compile. *)
Fixpoint firstError (patterns : list string) : option CompileError :=
  match patterns with
  | [] => None
  | pattern :: patterns' =>
      match regexp_Compile pattern with
      | inr err => Some err
      | inl _ => firstError patterns'
      end
  end.

(** [re] is what [pattern] compiles to. *)
Definition compilesTo (pattern : string) (re : Regexp) : Prop :=
  regexp_Compile pattern = inl re.

(** The largest score the detector can give fits an [int]. *)
Definition scoresFit (d : AnomalyDetector) : Prop :=
  (100 + 30 * Z.of_nat (List.length (errorPatterns d))
       + 25 * Z.of_nat (List.length (slowPatterns d))
       + 40 * Z.of_nat (List.length (suspiciousIPs d)) <= int_max)%Z.

End MoreNotions.

(** ** Inputs to run the further properties on *)

Module Samples.
Import LiteralEngine.

Definition sampleInput : list (Z * string) :=
  [ (1%Z, "2024-01-03 10:25:01 ERROR Database connection timeout after 30s");
    (2%Z, "cache is slow");
    (3%Z, "2024-01-03 10:26:20 WARN Disk usage at 85%");
    (4%Z, "INFO [db] started");
    (5%Z, "Fatal [db] disk failure") ].

Definition sampleError : @LogEntry lib :=
  @mkLogEntry lib 1%Z ERROR "ERROR [db] disk failure" "ERROR [db] disk failure"
    true 50.

Definition sampleWarn : @LogEntry lib :=
  @mkLogEntry lib 1%Z WARN "WARN [db] disk failure" "ERROR [db] disk failure"
    false 20.

(** The default configuration without colours. *)
Definition plainConfig : Config := set_ColorOutput false DefaultConfig.

End Samples.

(** * Properties *)

(** ** Go's [int] *)

Lemma wrap_in_range (z : Z) : in_range (wrap z).
Proof.
  unfold in_range, wrap, int_min, int_max.
  pose proof (Z.mod_pos_bound (z + 2 ^ 63) (2 ^ 64) ltac:(lia)). lia.
Qed.

Lemma wrap_small (z : Z) : in_range z -> wrap z = z.
Proof.
  unfold in_range, wrap, int_min, int_max. intros Hz.
  rewrite Z.mod_small by lia. lia.
Qed.

Lemma int_add_exact (a b : Z) : in_range (a + b) -> int_add a b = a + b.
Proof. apply wrap_small. Qed.

Lemma incr_neq (a : Z) : in_range a -> incr a <> a.
Proof.
  unfold incr, int_add, in_range, int_min, int_max. intros Ha.
  destruct (Z.eq_dec a (2 ^ 63 - 1)) as [->|Hne].
  - vm_compute. discriminate.
  - rewrite wrap_small; [lia|]. unfold in_range, int_min, int_max. lia.
Qed.

(** ** Strings and bytes *)

Section StringFacts.

Lemma append_assoc (a b c : string) : (a ++ b) ++ c = a ++ (b ++ c).
Proof. induction a as [|x a IH]; simpl; [reflexivity | now rewrite IH]. Qed.

Lemma append_nil_r (a : string) : a ++ "" = a.
Proof. induction a as [|x a IH]; simpl; [reflexivity | now rewrite IH]. Qed.

Lemma append_inv_head (a b c : string) : a ++ b = a ++ c -> b = c.
Proof.
  induction a as [|x a IH]; simpl; [tauto|]. intros [= Hbc]. auto.
Qed.

Lemma length_append (a b : string) :
  String.length (a ++ b) = (String.length a + String.length b)%nat.
Proof. induction a as [|x a IH]; simpl; [reflexivity | now rewrite IH]. Qed.

Lemma allAscii_complete (c : ascii) : In c allAscii.
Proof.
  unfold allAscii. rewrite <- (ascii_nat_embedding c).
  apply in_map, in_seq. pose proof (nat_ascii_bounded c). lia.
Qed.

Lemma forall_ascii (P : ascii -> bool) :
  forallb P allAscii = true -> forall c, P c = true.
Proof.
  intros Hall c. rewrite forallb_forall in Hall. apply Hall, allAscii_complete.
Qed.

Lemma forall_ascii2 (P : ascii -> ascii -> bool) :
  forallb (fun x => forallb (P x) allAscii) allAscii = true ->
  forall x y, P x y = true.
Proof.
  intros Hall x y.
  apply (forall_ascii (P x)). now apply (forall_ascii _ Hall x).
Qed.

(** Against an upper-case letter, equality up to case is equality after
    [upperByte]. *)
Lemma eqFold_upper (c y : ascii) :
  isUpperByte y = true -> eqFold c y = Ascii.eqb (upperByte c) y.
Proof.
  intros Hy.
  pose proof (forall_ascii2
    (fun c y => implb (isUpperByte y)
                  (Bool.eqb (eqFold c y) (Ascii.eqb (upperByte c) y)))
    ltac:(vm_compute; reflexivity) c y) as Hc.
  cbv beta in Hc. rewrite Hy in Hc. simpl in Hc. now apply eqb_prop in Hc.
Qed.

(** A byte whose upper case is an upper-case letter is an ASCII letter. *)
Lemma upper_letter_byte (c : ascii) :
  isUpperByte (upperByte c) = true ->
  (byte c <? 128)%N = true /\ isWordByte c = true /\ isSpaceByte c = false.
Proof.
  intros Hc.
  pose proof (forall_ascii
    (fun c => implb (isUpperByte (upperByte c))
                ((byte c <? 128)%N && isWordByte c && negb (isSpaceByte c)))
    ltac:(vm_compute; reflexivity) c) as Hb.
  cbv beta in Hb. rewrite Hc in Hb. simpl in Hb.
  apply andb_true_iff in Hb as [Hb Hs]. apply andb_true_iff in Hb as [Hb Hw].
  apply negb_true_iff in Hs. tauto.
Qed.

Lemma HasPrefix_spec (s p : string) :
  HasPrefix s p = true <-> exists rest, s = p ++ rest.
Proof.
  revert s. induction p as [|x p IH]; intros s; simpl.
  - split; [intros _; now exists s | reflexivity].
  - destruct s as [|c s].
    + split; [discriminate | intros (rest & Hr); discriminate].
    + rewrite andb_true_iff, Ascii.eqb_eq, IH. split.
      * intros (-> & rest & ->). now exists rest.
      * intros (rest & [= -> ->]). split; [reflexivity | now exists rest].
Qed.

Lemma Contains_spec (s sub : string) :
  Contains s sub = true <-> exists pre post, s = pre ++ sub ++ post.
Proof.
  induction s as [|c s IH]; simpl; rewrite orb_true_iff, HasPrefix_spec.
  - split.
    + intros [(rest & Hr)|Hf]; [|discriminate]. now exists "", rest.
    + intros (pre & post & Hs). left. destruct pre; [now exists post|discriminate].
  - rewrite IH. split.
    + intros [(rest & Hr)|(pre & post & ->)].
      * now exists "", rest.
      * now exists (String c pre), post.
    + intros (pre & post & Hs). destruct pre as [|x pre]; simpl in Hs.
      * left. now exists post.
      * right. injection Hs as -> ->. now exists pre, post.
Qed.

Lemma span_spec (p : ascii -> bool) (s a b : string) :
  span p s = (a, b) ->
  s = a ++ b /\ allBytes p a = true /\
  match b with String c _ => p c = false | EmptyString => True end.
Proof.
  revert a b. induction s as [|c s IH]; intros a b; simpl.
  - intros [= <- <-]. simpl. tauto.
  - destruct (p c) eqn:Hc.
    + destruct (span p s) as [a' b'] eqn:Hsp. intros [= <- <-].
      destruct (IH a' b' eq_refl) as (-> & Ha & Hb). simpl. rewrite Hc. tauto.
    + intros [= <- <-]. simpl. tauto.
Qed.

Lemma span_append (p : ascii -> bool) (a b : string) :
  allBytes p a = true ->
  match b with String c _ => p c = false | EmptyString => True end ->
  span p (a ++ b) = (a, b).
Proof.
  intros Ha Hb. induction a as [|x a IH]; simpl in *.
  - destruct b as [|c b]; simpl; [reflexivity | now rewrite Hb].
  - apply andb_true_iff in Ha as [Hx Ha]. now rewrite Hx, IH.
Qed.

Lemma lastByte_snoc (a : string) (c : ascii) :
  lastByte (a ++ String c "") = Some c.
Proof.
  induction a as [|x a IH]; simpl; [reflexivity|].
  rewrite IH. destruct a; reflexivity.
Qed.

Lemma mapBytes_append (f : ascii -> ascii) (a b : string) :
  mapBytes f (a ++ b) = mapBytes f a ++ mapBytes f b.
Proof. induction a as [|x a IH]; simpl; [reflexivity | now rewrite IH]. Qed.

Lemma mapBytes_split (f : ascii -> ascii) (s x y : string) :
  mapBytes f s = x ++ y ->
  exists a b, s = a ++ b /\ mapBytes f a = x /\ mapBytes f b = y.
Proof.
  revert s. induction x as [|c x IH]; intros s Hs.
  - now exists "", s.
  - destruct s as [|c' s]; [discriminate|]. simpl in Hs.
    injection Hs as Hc Hs. destruct (IH s Hs) as (a & b & -> & <- & <-).
    exists (String c' a), b. simpl. now rewrite Hc.
Qed.

End StringFacts.

(** ** The backtracking search on the two literals *)

Section SearchFacts.

Lemma dropBytes_append (a m : string) :
  dropBytes (String.length a) (a ++ m) = m.
Proof. induction a as [|x a IH]; simpl; [now destruct m | exact IH]. Qed.

Lemma take_taken (c : ascii) (s' : string) (st : MState) (m : string) :
  taken (take c s' st) ++ m = taken st ++ String c m.
Proof. unfold take. simpl. now rewrite append_assoc. Qed.

(** A literal in the search is [litFold]. *)
Lemma matchK_literalFold {A : Type} (prev : option ascii) (w : string) :
  forall (st : MState) (k : MState -> option A),
    matchK prev (literalFold w) st k =
    match litFold w (rest st) with
    | Some (m, s') => k (mkMState (taken st ++ m) s' (group1 st))
    | None => None
    end.
Proof.
  induction w as [|y w IH]; intros st k; simpl.
  - rewrite append_nil_r. now destruct st.
  - destruct (rest st) as [|c s']; [reflexivity|].
    destruct (eqFold c y); [|reflexivity].
    rewrite IH. simpl rest.
    destruct (litFold w s') as [[m r]|]; [|reflexivity].
    now rewrite take_taken.
Qed.

(** A greedy repetition of a class, when what follows cannot start with a
    byte of the class: the longest run of the class or nothing. *)
Lemma plusK_span {A : Type} (p : ascii -> bool) (k : MState -> option A) :
  (forall st c s', rest st = String c s' -> p c = true -> k st = None) ->
  forall (s : string) (st : MState),
    plusK p s st k =
    match span p s with
    | (EmptyString, _) => None
    | (ws, tl) => k (mkMState (taken st ++ ws) tl (group1 st))
    end.
Proof.
  intros Hk. induction s as [|c s IH]; intros st; simpl; [reflexivity|].
  destruct (p c) eqn:Hc; [|reflexivity].
  rewrite IH. destruct (span p s) as [ws tl] eqn:Hsp.
  apply span_spec in Hsp as (Hs & Hws & _).
  destruct ws as [|x ws].
  - simpl in Hs. subst tl. reflexivity.
  - rewrite take_taken.
    rewrite (Hk (take c s st) x (ws ++ tl)).
    + now destruct (k _).
    + simpl. exact Hs.
    + simpl in Hws. now apply andb_true_iff in Hws as [Hx _].
Qed.

(** [\s+\[] after a group that took [m], from the start of the match. *)
Lemma spaces_bracket_tail (prev : option ascii) (m s : string) :
  matchK prev (Seq (PlusByte isSpaceByte) (Byte (fun c => Ascii.eqb c "[")))
    (mkMState m s m) (fun st => Some [taken st; group1 st]) =
  match spacesBracket s with
  | Some tail => Some [m ++ tail; m]
  | None => None
  end.
Proof.
  simpl matchK. rewrite plusK_span.
  - unfold spacesBracket. destruct (span isSpaceByte s) as [ws tl].
    destruct ws as [|x ws]; [reflexivity|]. simpl rest.
    destruct tl as [|c tl]; [reflexivity|].
    destruct (Ascii.eqb_spec c "[") as [->|]; [|reflexivity].
    unfold take. simpl taken. simpl group1. now rewrite append_assoc.
  - intros st c s' Hr Hc. rewrite Hr.
    destruct (Ascii.eqb_spec c "[") as [->|]; [discriminate | reflexivity].
Qed.

(** The level pattern at one position. *)
Lemma matchAt_levelPattern (prev : option ascii) (s : string) :
  matchAt levelPattern prev s =
  if wordBoundary prev s then groupAt levelWords s else None.
Proof.
  unfold matchAt, levelPattern. cbn [matchK].
  unfold before. cbn [taken rest lastByte].
  destruct (wordBoundary prev s); [|reflexivity].
  rewrite !matchK_literalFold. cbn [rest taken group1 String.length dropBytes].
  unfold levelWords. cbn [groupAt append].
  pose proof (spaces_bracket_tail prev) as Htail. cbn [matchK rest] in Htail.
  repeat match goal with
         | |- context [litFold ?w s] =>
             destruct (litFold w s) as [[? ?]|];
             [ rewrite Htail; destruct (spacesBracket _); [reflexivity|] | ]
         end; reflexivity.
Qed.

Lemma search_levelPattern (s : string) :
  forall prev, search levelPattern prev s = findLevel prev s.
Proof.
  induction s as [|c s IH]; intros prev; cbn [search findLevel];
    rewrite matchAt_levelPattern;
    destruct (if wordBoundary prev _ then groupAt levelWords _ else None);
    auto.
Qed.

(** The search with the level pattern is the closed form. *)
Lemma FindStringSubmatch_levelPattern (line : string) :
  FindStringSubmatch levelPattern line = levelPattern_FindStringSubmatch line.
Proof. apply search_levelPattern. Qed.

(** The component pattern at one position. *)
Lemma matchAt_componentPattern (prev : option ascii) (s : string) :
  matchAt componentPattern prev s = componentAt s.
Proof.
  unfold matchAt, componentPattern, componentAt. cbn [matchK rest].
  destruct s as [|c s]; [reflexivity|].
  destruct (Ascii.eqb_spec c "[") as [->|]; [|reflexivity].
  rewrite plusK_span.
  - unfold take. cbn [taken rest group1 append String.length dropBytes].
    destruct (span notClosing s) as [body tl] eqn:Hsp.
    apply span_spec in Hsp as (_ & _ & Htl).
    destruct body as [|x body]; [reflexivity|].
    destruct tl as [|y tl]; [reflexivity|].
    unfold notClosing in Htl. apply negb_false_iff in Htl. rewrite Htl.
    apply Ascii.eqb_eq in Htl. now subst y.
  - intros st c s' Hr Hc. cbn [rest]. rewrite Hr.
    unfold notClosing in Hc. apply negb_true_iff in Hc. now rewrite Hc.
Qed.

Lemma search_componentPattern (s : string) :
  forall prev, search componentPattern prev s = findComponent s.
Proof.
  induction s as [|c s IH]; intros prev; cbn [search findComponent];
    rewrite matchAt_componentPattern; destruct (componentAt _); auto.
Qed.

(** The search with the component pattern is the closed form. *)
Lemma FindStringSubmatch_componentPattern (line : string) :
  FindStringSubmatch componentPattern line =
  componentPattern_FindStringSubmatch line.
Proof. apply search_componentPattern. Qed.

End SearchFacts.

(** ** Lists of strings and levels *)

Lemma slices_Contains_In (l : list string) (x : string) :
  slices_Contains l x = true <-> In x l.
Proof.
  induction l as [|y l IH]; simpl.
  - split; [discriminate | tauto].
  - rewrite orb_true_iff, IH, String.eqb_eq. tauto.
Qed.

Lemma slices_Contains_not_In (l : list string) (x : string) :
  slices_Contains l x = false <-> ~ In x l.
Proof.
  rewrite <- slices_Contains_In. destruct (slices_Contains l x); split;
    intros; congruence.
Qed.



(** ** The component pattern *)

Section ComponentPattern.

Lemma componentAt_complete (comp post : string) :
  comp <> "" -> allBytes notClosing comp = true ->
  componentAt ("[" ++ comp ++ "]" ++ post) = Some ["[" ++ comp ++ "]"; comp].
Proof.
  intros Hne Hcomp. simpl.
  change (String "]" post) with ("]" ++ post).
  rewrite (span_append notClosing comp ("]" ++ post) Hcomp) by reflexivity.
  destruct comp; [congruence | reflexivity].
Qed.

Lemma componentAt_sound (s : string) (r : list string) :
  componentAt s = Some r ->
  exists comp post,
    comp <> "" /\ allBytes notClosing comp = true /\
    s = "[" ++ comp ++ "]" ++ post /\ r = ["[" ++ comp ++ "]"; comp].
Proof.
  unfold componentAt. destruct s as [|c rest]; [discriminate|].
  destruct (Ascii.eqb_spec c "[") as [->|Hne]; [|discriminate].
  destruct (span notClosing rest) as [body tail] eqn:Hsp.
  apply span_spec in Hsp as (-> & Hbody & Htail).
  destruct body as [|x body]; [discriminate|].
  destruct tail as [|y tail]; [discriminate|].
  intros [= <-]. unfold notClosing in Htail. apply negb_false_iff in Htail.
  apply Ascii.eqb_eq in Htail. subst y.
  exists (String x body), tail. repeat split; try assumption. discriminate.
Qed.

Lemma findComponent_here (s : string) (r : list string) :
  componentAt s = Some r -> findComponent s = r.
Proof. intros Hc. destruct s; cbn [findComponent]; now rewrite Hc. Qed.

Lemma findComponent_next (c : ascii) (s : string) :
  componentAt (String c s) = None ->
  findComponent (String c s) = findComponent s.
Proof. intros Hc. cbn [findComponent]. now rewrite Hc. Qed.

(** The search reports the leftmost bracketed text. *)
Lemma findComponent_leftmost (line comp post : string) :
  comp <> "" -> allBytes notClosing comp = true ->
  forall pre1 pre0,
    line = pre0 ++ pre1 ++ "[" ++ comp ++ "]" ++ post ->
    (forall pre' comp',
       bracketedAt line pre' comp' ->
       (String.length (pre0 ++ pre1) <= String.length pre')%nat) ->
    findComponent (pre1 ++ "[" ++ comp ++ "]" ++ post) =
      ["[" ++ comp ++ "]"; comp].
Proof.
  intros Hne Hcomp. induction pre1 as [|c pre1 IH]; intros pre0 Hline Hleft.
  - apply findComponent_here. now apply componentAt_complete.
  - change (String c pre1 ++ "[" ++ comp ++ "]" ++ post)
      with (String c (pre1 ++ "[" ++ comp ++ "]" ++ post)) in *.
    destruct (componentAt (String c (pre1 ++ "[" ++ comp ++ "]" ++ post)))
      as [r|] eqn:Hhere.
    + exfalso.
      destruct (componentAt_sound _ _ Hhere)
        as (comp' & post' & Hne' & Hcomp' & Hs & _).
      assert (Hb : bracketedAt line pre0 comp').
      { repeat split; try assumption. exists post'. now rewrite Hline, Hs. }
      specialize (Hleft _ _ Hb). rewrite length_append in Hleft.
      simpl in Hleft. lia.
    + rewrite (findComponent_next _ _ Hhere).
      apply (IH (pre0 ++ String c "")).
      * now rewrite append_assoc.
      * intros pre' comp' H'. rewrite append_assoc. simpl. eauto.
Qed.

(** Without bracketed text the search finds nothing. *)
Lemma findComponent_none (line : string) :
  (forall pre comp, ~ bracketedAt line pre comp) ->
  forall rem pre0, line = pre0 ++ rem -> findComponent rem = [].
Proof.
  intros Hno. induction rem as [|c rem IH]; intros pre0 Hline.
  - reflexivity.
  - destruct (componentAt (String c rem)) as [r|] eqn:Hhere.
    + exfalso.
      destruct (componentAt_sound _ _ Hhere)
        as (comp & post & Hne & Hcomp & Hs & _).
      apply (Hno pre0 comp). repeat split; try assumption.
      exists post. now rewrite Hline, Hs.
    + rewrite (findComponent_next _ _ Hhere).
      apply (IH (pre0 ++ String c "")). now rewrite append_assoc.
Qed.

(** [extractComponent] returns the text of the leftmost bracketed text of
    the line. *)
Lemma extractComponent_first (line pre comp : string) :
  bracketedAt line pre comp ->
  (forall pre' comp',
     bracketedAt line pre' comp' ->
     (String.length pre <= String.length pre')%nat) ->
  extractComponent line = comp.
Proof.
  intros (Hne & Hcomp & post & Hline) Hleft.
  unfold extractComponent. cbv zeta.
  rewrite FindStringSubmatch_componentPattern.
  unfold componentPattern_FindStringSubmatch.
  assert (Hf : findComponent line = ["[" ++ comp ++ "]"; comp]).
  { rewrite Hline at 1.
    apply (findComponent_leftmost line comp post Hne Hcomp pre "");
      assumption. }
  now rewrite Hf.
Qed.

(** It returns the empty string for a line without bracketed text. *)
Lemma extractComponent_none (line : string) :
  (forall pre comp, ~ bracketedAt line pre comp) ->
  extractComponent line = "".
Proof.
  intros Hno. unfold extractComponent. cbv zeta.
  rewrite FindStringSubmatch_componentPattern.
  unfold componentPattern_FindStringSubmatch.
  now rewrite (findComponent_none line Hno line "" eq_refl).
Qed.

End ComponentPattern.

(** ** Command line *)

Section CommandLine.
Context `{GoLib}.

Lemma MinLevel_set_MinLevel (v : string) (c : Config) :
  MinLevel (set_MinLevel v c) = v.
Proof. reflexivity. Qed.

(** With [ShowAll] set, the last assignment of [ApplyToConfig] decides:
    [MinLevel] ends at the minimum level the options carry, and at
    ["DEBUG"] only when they carry the empty string. *)
Lemma ApplyToConfig_ShowAll_last (o : CLIOptions.t) (cfg : Config) :
  CLIOptions.ShowAll o = true ->
  MinLevel (ApplyToConfig o cfg) =
    (if CLIOptions.MinLevel o =? "" then "DEBUG" else CLIOptions.MinLevel o).
Proof.
  intros Hall. unfold ApplyToConfig. rewrite Hall.
  destruct (CLIOptions.MinLevel o =? "") eqn:Hml; simpl negb; cbv iota.
  - destruct (CLIOptions.Component o =? ""), (CLIOptions.Compact o),
      (CLIOptions.NoColor o), (CLIOptions.ShowInfo o), (CLIOptions.ShowDebug o);
      reflexivity.
  - apply MinLevel_set_MinLevel.
Qed.

(** C3, the code at the command line [--all]: the options have [ShowAll]
    set and still carry ["WARN"], the default [ParseCLI] registers for
    [--min-level]; [ApplyToConfig] first sets [MinLevel] to ["DEBUG"] and
    then, the carried level not being empty, overwrites it.  For every
    configuration the result has [MinLevel] ["WARN"], not ["DEBUG"], and
    [ShouldShow] hides every DEBUG and every INFO entry. *)
Theorem all_flag_alone_MinLevel_WARN (cfg : Config) (e : LogEntry) :
  let opts := ParseCLI [flag_all true] in
  CLIOptions.ShowAll opts = true /\
  CLIOptions.MinLevel opts = "WARN" /\
  MinLevel (set_MinLevel "DEBUG" (set_ShowInfo true (set_ShowDebug true cfg)))
    = "DEBUG" /\
  MinLevel (ApplyToConfig opts cfg) = "WARN" /\
  MinLevel (ApplyToConfig opts cfg) <> "DEBUG" /\
  (Level e = DEBUG \/ Level e = INFO ->
   ShouldShow (ApplyToConfig opts cfg) e = false).
Proof.
  cbv zeta.
  assert (Hopts : ParseCLI [flag_all true] =
                  CLIOptions.mk "" true false false false false "" "WARN"
                    false false false) by reflexivity.
  rewrite Hopts.
  assert (Hcfg : ApplyToConfig
                   (CLIOptions.mk "" true false false false false "" "WARN"
                      false false false) cfg =
                 set_MinLevel "WARN"
                   (set_MinLevel "DEBUG"
                      (set_ShowInfo true (set_ShowDebug true cfg))))
    by reflexivity.
  rewrite Hcfg.
  repeat split; try reflexivity.
  - rewrite MinLevel_set_MinLevel. discriminate.
  - intros Hlevel. unfold ShouldShow.
    assert (Hmin : parseMinLevel
                     (set_MinLevel "WARN"
                        (set_MinLevel "DEBUG"
                           (set_ShowInfo true (set_ShowDebug true cfg))))
                   = WARN) by reflexivity.
    rewrite Hmin.
    destruct Hlevel as [-> | ->]; reflexivity.
Qed.

(** A minimum level given on the command line is the one that remains:
    [--all --min-level ERROR] ends at ["ERROR"]. *)
Example all_flag_with_min_level :
  CLIOptions.ShowAll (ParseCLI [flag_all true; flag_min_level "ERROR"]) = true /\
  MinLevel (ApplyToConfig (ParseCLI [flag_all true; flag_min_level "ERROR"])
              DefaultConfig) = "ERROR".
Proof. split; reflexivity. Qed.

End CommandLine.

(** ** The filter *)

Section Filter.
Context `{GoLib}.

(** [ShouldShow] as the conjunction of its three gates. *)
Lemma ShouldShow_gates (c : Config) (e : LogEntry) :
  ShouldShow c e = true <->
  (LogLevel_int (parseMinLevel c) <= LogLevel_int (Level e))%Z /\
  (IncludeComponents c = [] \/
   In (extractComponent (Raw e)) (IncludeComponents c)) /\
  ~ In (extractComponent (Raw e)) (ExcludeComponents c).
Proof.
  unfold ShouldShow.
  destruct (Z.ltb_spec (LogLevel_int (Level e)) (LogLevel_int (parseMinLevel c)))
    as [Hlt|Hge].
  { split; [discriminate | lia]. }
  rewrite <- slices_Contains_not_In.
  destruct (IncludeComponents c) as [|i l] eqn:Hinc.
  - simpl. rewrite negb_true_iff. intuition.
  - replace (Z.of_nat (List.length (i :: l)) >? 0)%Z with true
      by (symmetry; apply Z.gtb_lt; simpl List.length; lia).
    destruct (slices_Contains (i :: l) (extractComponent (Raw e))) eqn:Hfound;
      simpl negb; cbv iota.
    + apply slices_Contains_In in Hfound. rewrite negb_true_iff. intuition.
    + apply slices_Contains_not_In in Hfound.
      split; [discriminate|]. intros (_ & [Hnil|Hin] & _); [discriminate|tauto].
Qed.

(** C8: an entry whose extracted component is listed in
    [ExcludeComponents] is rejected, whether or not [IncludeComponents]
    lists it too; an entry that is shown has passed the include gate and
    the exclude gate; the extracted component is the text between the
    brackets of the leftmost bracketed text of the raw line. *)
Theorem ShouldShow_excluded_component (c : Config) (e : LogEntry) :
  (In (extractComponent (Raw e)) (ExcludeComponents c) ->
   ShouldShow c e = false) /\
  (ShouldShow c e = true ->
   (IncludeComponents c = [] \/
    In (extractComponent (Raw e)) (IncludeComponents c)) /\
   ~ In (extractComponent (Raw e)) (ExcludeComponents c)) /\
  (forall pre comp,
     bracketedAt (Raw e) pre comp ->
     (forall pre' comp',
        bracketedAt (Raw e) pre' comp' ->
        (String.length pre <= String.length pre')%nat) ->
     extractComponent (Raw e) = comp).
Proof.
  split; [|split].
  - intros Hex. destruct (ShouldShow c e) eqn:Hs; [|reflexivity].
    apply ShouldShow_gates in Hs. tauto.
  - intros Hs. apply ShouldShow_gates in Hs. tauto.
  - intros pre comp. apply extractComponent_first.
Qed.


(** C10: [ShouldShow] reads the level and the raw line of the entry and the
    fields [MinLevel], [IncludeComponents] and [ExcludeComponents] of the
    configuration, and nothing else: two configurations that agree on these
    three fields, whatever their [ShowDebug] and [ShowInfo], decide alike. *)
Theorem ShouldShow_depends_only_on (c1 c2 : Config) (e1 e2 : LogEntry) :
  Level e1 = Level e2 -> Raw e1 = Raw e2 ->
  MinLevel c1 = MinLevel c2 ->
  IncludeComponents c1 = IncludeComponents c2 ->
  ExcludeComponents c1 = ExcludeComponents c2 ->
  ShouldShow c1 e1 = ShouldShow c2 e2.
Proof.
  intros HL HR HM HI HE. unfold ShouldShow.
  assert (Hmin : parseMinLevel c1 = parseMinLevel c2)
    by (unfold parseMinLevel; now rewrite HM).
  rewrite Hmin, HL.
  destruct (LogLevel_int (Level e2) <? LogLevel_int (parseMinLevel c2))%Z;
    [reflexivity|].
  cbv zeta. now rewrite HR, HI, HE.
Qed.

(** [ShowDebug] and [ShowInfo] can be set to any values without changing
    the decision. *)
Lemma ShouldShow_ignores_ShowDebug_ShowInfo
    (c : Config) (e : LogEntry) (dbg inf : bool) :
  ShouldShow (set_ShowInfo inf (set_ShowDebug dbg c)) e = ShouldShow c e.
Proof. reflexivity. Qed.

End Filter.

(** ** Scoring and the anomaly decision *)

Section Scoring.
Context `{GoLib}.

Lemma sameSetup_refl (d : AnomalyDetector) : sameSetup d d.
Proof. repeat split. Qed.

Lemma sameSetup_incr_lineCount d : sameSetup d (incr_lineCount d).
Proof. repeat split. Qed.

Lemma sameSetup_incr_errorCount d : sameSetup d (incr_errorCount d).
Proof. repeat split. Qed.

Lemma sameSetup_incr_warnCount d : sameSetup d (incr_warnCount d).
Proof. repeat split. Qed.

Lemma sameSetup_trans d1 d2 d3 :
  sameSetup d1 d2 -> sameSetup d2 d3 -> sameSetup d1 d3.
Proof.
  unfold sameSetup. intros (A1 & A2 & A3 & A4 & A5) (B1 & B2 & B3 & B4 & B5).
  repeat split; congruence.
Qed.

Lemma structuredLevel_levelScored levelStr d e :
  Score e = 0%Z -> levelScored d e (structuredLevel levelStr d e).
Proof.
  intros Hs. unfold structuredLevel, levelScored.
  repeat match goal with
         | |- context [if ?b then _ else _] => destruct b
         end;
    simpl; rewrite ?Hs;
    (split; [reflexivity | split; [reflexivity|]]);
    auto using sameSetup_refl, sameSetup_incr_errorCount,
      sameSetup_incr_warnCount.
Qed.

Lemma keywordLevel_levelScored lineLower d e :
  Score e = 0%Z -> levelScored d e (keywordLevel lineLower d e).
Proof.
  intros Hs. unfold keywordLevel, levelScored.
  repeat match goal with
         | |- context [if ?b then _ else _] => destruct b
         end;
    simpl; rewrite ?Hs;
    (split; [reflexivity | split; [reflexivity|]]);
    auto using sameSetup_refl, sameSetup_incr_errorCount,
      sameSetup_incr_warnCount.
Qed.

(** The three loops over the patterns. *)
Lemma patternLoop_Level w patterns line e :
  Level (patternLoop w patterns line e) = Level e.
Proof.
  unfold patternLoop. revert e.
  induction patterns as [|p ps IH]; intros e; simpl; [reflexivity|].
  rewrite IH. destruct (MatchString p line); reflexivity.
Qed.

Lemma patternLoop_IsAnomaly w patterns line e :
  IsAnomaly (patternLoop w patterns line e) =
  IsAnomaly e || anyMatch patterns line.
Proof.
  unfold patternLoop, anyMatch. revert e.
  induction patterns as [|p ps IH]; intros e; simpl.
  - now rewrite orb_false_r.
  - rewrite IH. destruct (MatchString p line); simpl; [|reflexivity].
    now rewrite orb_true_r.
Qed.

Lemma matchCount_cons p ps line :
  matchCount (p :: ps) line =
  ((if MatchString p line then 1 else 0) + matchCount ps line)%Z.
Proof.
  unfold matchCount. simpl. destruct (MatchString p line); simpl List.length; lia.
Qed.

Lemma matchCount_bounds patterns line :
  (0 <= matchCount patterns line <= Z.of_nat (List.length patterns))%Z.
Proof.
  induction patterns as [|p ps IH]; [unfold matchCount; simpl; lia|].
  rewrite matchCount_cons. simpl List.length.
  destruct (MatchString p line); lia.
Qed.

Lemma patternLoop_Score w patterns line e :
  (0 <= w)%Z -> (int_min <= Score e)%Z ->
  (Score e + w * Z.of_nat (List.length patterns) <= int_max)%Z ->
  Score (patternLoop w patterns line e) =
  (Score e + w * matchCount patterns line)%Z.
Proof.
  intros Hw. unfold patternLoop. revert e.
  induction patterns as [|p ps IH]; intros e Hlo Hhi.
  - unfold matchCount. simpl. lia.
  - rewrite matchCount_cons. simpl fold_left. simpl List.length in Hhi.
    destruct (MatchString p line).
    + rewrite IH; simpl Score.
      * rewrite int_add_exact; [lia|]. unfold in_range. nia.
      * rewrite int_add_exact; [lia|]. unfold in_range. nia.
      * rewrite int_add_exact; [nia|]. unfold in_range. nia.
    + rewrite IH; [lia | assumption | nia].
Qed.

(** [ParseLine] in stages: the level switch gives [d1] and [e1], the three
    loops give [e3], and the threshold decides the rest. *)
Lemma ParseLine_stages now d line :
  exists d1 e1,
    levelStage now d line = (d1, e1) /\
    Score e1 = levelBase (Level e1) /\
    IsAnomaly e1 = false /\
    sameSetup d d1 /\
    let e3 :=
      patternLoop 40 (suspiciousIPs d) line
        (patternLoop 25 (slowPatterns d) line
           (patternLoop 30 (errorPatterns d) line e1)) in
    ParseLine now d line =
      if (Score e3 >=? AnomalyThreshold (config d))%Z
      then (incr_anomalyCount d1,
            set_Message (TrimSpace line) (set_IsAnomaly true e3))
      else (d1, set_Message (TrimSpace line) e3).
Proof.
  unfold ParseLine. fold (entry0 now line). fold (levelStage now d line).
  assert (Hst : levelScored (incr_lineCount d) (entry0 now line)
                  (levelStage now d line)).
  { unfold levelStage.
    destruct (Z.of_nat (List.length (FindStringSubmatch levelPattern line)) >? 1)%Z;
      [apply structuredLevel_levelScored | apply keywordLevel_levelScored];
      reflexivity. }
  destruct (levelStage now d line) as [d1 e1].
  destruct Hst as (Hsc & Han & Hset). simpl in Hsc, Han, Hset.
  assert (Hset' : sameSetup d d1)
    by (eapply sameSetup_trans; [apply sameSetup_incr_lineCount | exact Hset]).
  exists d1, e1. repeat split; try assumption; try apply Hset'.
  destruct Hset' as (-> & -> & -> & -> & _). cbv zeta.
  match goal with |- context [if ?b then _ else _] => destruct b end;
    reflexivity.
Qed.

(** The level of the returned entry is the one the first stage sets. *)
Lemma ParseLine_Level now d line :
  Level (snd (ParseLine now d line)) = Level (snd (levelStage now d line)).
Proof.
  destruct (ParseLine_stages now d line) as (d1 & e1 & Hst & _ & _ & _ & Heq).
  cbv zeta in Heq. rewrite Heq, Hst.
  match goal with |- context [if ?b then _ else _] => destruct b end;
    simpl; now rewrite !patternLoop_Level.
Qed.

(** C1: the score of the returned entry is the contribution of its level
    plus 30, 25 and 40 for each matching error, slow and suspicious pattern,
    every pattern of the detector counted once and the sum not capped.  The
    hypothesis says that the detector holds few enough patterns for the
    largest such sum to be an [int]. *)
Theorem ParseLine_Score now d line :
  (100 + 30 * Z.of_nat (List.length (errorPatterns d))
       + 25 * Z.of_nat (List.length (slowPatterns d))
       + 40 * Z.of_nat (List.length (suspiciousIPs d)) <= int_max)%Z ->
  Score (snd (ParseLine now d line)) =
  (levelBase (Level (snd (ParseLine now d line)))
   + 30 * matchCount (errorPatterns d) line
   + 25 * matchCount (slowPatterns d) line
   + 40 * matchCount (suspiciousIPs d) line)%Z.
Proof.
  intros Hfit.
  destruct (ParseLine_stages now d line) as (d1 & e1 & _ & Hsc & _ & _ & Heq).
  cbv zeta in Heq.
  set (e3 := patternLoop 40 (suspiciousIPs d) line
               (patternLoop 25 (slowPatterns d) line
                  (patternLoop 30 (errorPatterns d) line e1))) in *.
  assert (Hbase : (0 <= levelBase (Level e1) <= 100)%Z)
    by (destruct (Level e1); simpl; lia).
  pose proof (matchCount_bounds (errorPatterns d) line) as Be.
  pose proof (matchCount_bounds (slowPatterns d) line) as Bs.
  pose proof (matchCount_bounds (suspiciousIPs d) line) as Bx.
  assert (H1 : Score (patternLoop 30 (errorPatterns d) line e1) =
               (levelBase (Level e1) + 30 * matchCount (errorPatterns d) line)%Z).
  { rewrite patternLoop_Score; unfold int_min, int_max in *; lia. }
  assert (H2 : Score (patternLoop 25 (slowPatterns d) line
                        (patternLoop 30 (errorPatterns d) line e1)) =
               (levelBase (Level e1) + 30 * matchCount (errorPatterns d) line
                + 25 * matchCount (slowPatterns d) line)%Z).
  { rewrite patternLoop_Score; rewrite ?H1; unfold int_min, int_max in *; lia. }
  assert (H3 : Score e3 =
               (levelBase (Level e1) + 30 * matchCount (errorPatterns d) line
                + 25 * matchCount (slowPatterns d) line
                + 40 * matchCount (suspiciousIPs d) line)%Z).
  { unfold e3. rewrite patternLoop_Score; rewrite ?H2;
      unfold int_min, int_max in *; lia. }
  assert (HL : Level e3 = Level e1)
    by (unfold e3; now rewrite !patternLoop_Level).
  rewrite Heq.
  destruct (Score e3 >=? AnomalyThreshold (config d))%Z; simpl;
    rewrite H3, HL; reflexivity.
Qed.

(** C2: the returned entry is flagged as an anomaly exactly when a pattern
    of one of the three categories matches the line or the final score
    reaches the threshold of the configuration. *)
Theorem ParseLine_IsAnomaly now d line :
  IsAnomaly (snd (ParseLine now d line)) = true <->
  (exists p,
     (In p (errorPatterns d) \/ In p (slowPatterns d) \/
      In p (suspiciousIPs d)) /\
     MatchString p line = true) \/
  (AnomalyThreshold (config d) <= Score (snd (ParseLine now d line)))%Z.
Proof.
  destruct (ParseLine_stages now d line) as (d1 & e1 & _ & _ & Han & _ & Heq).
  cbv zeta in Heq.
  set (e3 := patternLoop 40 (suspiciousIPs d) line
               (patternLoop 25 (slowPatterns d) line
                  (patternLoop 30 (errorPatterns d) line e1))) in *.
  assert (HA : IsAnomaly e3 =
               anyMatch (errorPatterns d) line || anyMatch (slowPatterns d) line
               || anyMatch (suspiciousIPs d) line).
  { unfold e3. rewrite !patternLoop_IsAnomaly, Han. reflexivity. }
  assert (Hany : IsAnomaly e3 = true <->
                 exists p,
                   (In p (errorPatterns d) \/ In p (slowPatterns d) \/
                    In p (suspiciousIPs d)) /\ MatchString p line = true).
  { rewrite HA, !orb_true_iff. unfold anyMatch. rewrite !existsb_exists.
    split.
    - intros [[(p & Hin & Hm)|(p & Hin & Hm)]|(p & Hin & Hm)];
        exists p; tauto.
    - intros (p & [Hin|[Hin|Hin]] & Hm); [left; left|left; right|right];
        exists p; tauto. }
  rewrite Heq.
  destruct (Z.geb_spec (Score e3) (AnomalyThreshold (config d))) as [Hge|Hlt];
    simpl.
  - split; [intros _; right; lia | reflexivity].
  - rewrite Hany. split; [tauto | intros [Hp|Hthr]; [exact Hp | lia]].
Qed.

(** C4: [ParseLine] increments [anomalyCount], once, when the final score
    reaches the threshold, and leaves it alone otherwise, also when the
    entry is flagged because a pattern matched.  The hypothesis says that
    the counter is an [int]. *)
Theorem ParseLine_anomalyCount now d line :
  in_range (anomalyCount d) ->
  ((AnomalyThreshold (config d) <= Score (snd (ParseLine now d line)))%Z ->
   anomalyCount (fst (ParseLine now d line)) = incr (anomalyCount d) /\
   anomalyCount (fst (ParseLine now d line)) <> anomalyCount d) /\
  ((Score (snd (ParseLine now d line)) < AnomalyThreshold (config d))%Z ->
   anomalyCount (fst (ParseLine now d line)) = anomalyCount d).
Proof.
  intros Hrange.
  destruct (ParseLine_stages now d line) as (d1 & e1 & _ & _ & _ & Hset & Heq).
  cbv zeta in Heq. destruct Hset as (_ & _ & _ & _ & Hcount).
  rewrite Heq.
  match goal with
  | |- context [(?s >=? ?t)%Z] => destruct (Z.geb_spec s t) as [Hge|Hlt]
  end; simpl; rewrite Hcount.
  - split; [intros _|lia]. split; [reflexivity|]. now apply incr_neq.
  - split; [lia | reflexivity].
Qed.

End Scoring.

(** ** Patterns that do not compile *)

Section Compilation.
Context `{GoLib}.

Lemma compileLoop_inr patterns :
  forall regexes err,
    compileLoop patterns regexes = inr err ->
    exists pattern, In pattern patterns /\ regexp_Compile pattern = inr err.
Proof.
  induction patterns as [|p ps IH]; intros regexes err; simpl.
  - discriminate.
  - destruct (regexp_Compile p) as [re|err'] eqn:Hp.
    + intros Hloop. destruct (IH _ _ Hloop) as (q & Hin & Hq).
      exists q. tauto.
    + intros [= <-]. exists p. tauto.
Qed.

Lemma compileLoop_first_failure patterns :
  forall regexes,
    (exists pattern err,
       In pattern patterns /\ regexp_Compile pattern = inr err) ->
    exists pattern err,
      In pattern patterns /\ regexp_Compile pattern = inr err /\
      compileLoop patterns regexes = inr err.
Proof.
  induction patterns as [|p ps IH]; intros regexes (q & err & Hin & Hq).
  - destruct Hin.
  - simpl. destruct (regexp_Compile p) as [re|err'] eqn:Hp.
    + destruct Hin as [->|Hin]; [congruence|].
      destruct (IH (regexes ++ [re])%list) as (q' & err'' & Hin' & Hq' & Hloop).
      { exists q, err. tauto. }
      exists q', err''. simpl. tauto.
    + exists p, err'. simpl. tauto.
Qed.

Lemma CompilePatterns_first_failure (c : Config) :
  (exists pattern err,
     In pattern (ErrorPatterns c ++ SlowPatterns c ++ SuspiciousPatterns c)%list /\
     regexp_Compile pattern = inr err) ->
  exists pattern err,
    In pattern (ErrorPatterns c ++ SlowPatterns c ++ SuspiciousPatterns c)%list /\
    regexp_Compile pattern = inr err /\
    CompilePatterns c = ([], [], [], Some err).
Proof.
  intros (q & err & Hin & Hq). unfold CompilePatterns.
  destruct (compileLoop (ErrorPatterns c) []) as [errorRegexes|e1] eqn:H1.
  - destruct (compileLoop (SlowPatterns c) []) as [slowRegexes|e2] eqn:H2.
    + destruct (compileLoop (SuspiciousPatterns c) []) as [suspRegexes|e3] eqn:H3.
      * exfalso. rewrite !in_app_iff in Hin. destruct Hin as [Hin|[Hin|Hin]].
        -- destruct (compileLoop_first_failure (ErrorPatterns c) []) as (? & ? & _ & _ & Hf);
             [exists q, err; tauto | congruence].
        -- destruct (compileLoop_first_failure (SlowPatterns c) []) as (? & ? & _ & _ & Hf);
             [exists q, err; tauto | congruence].
        -- destruct (compileLoop_first_failure (SuspiciousPatterns c) []) as (? & ? & _ & _ & Hf);
             [exists q, err; tauto | congruence].
      * destruct (compileLoop_inr (SuspiciousPatterns c) [] e3 H3) as (p & Hp & Hc).
        exists p, e3. rewrite !in_app_iff. tauto.
    + destruct (compileLoop_inr (SlowPatterns c) [] e2 H2) as (p & Hp & Hc).
      exists p, e2. rewrite !in_app_iff. tauto.
  - destruct (compileLoop_inr (ErrorPatterns c) [] e1 H1) as (p & Hp & Hc).
    exists p, e1. rewrite !in_app_iff. tauto.
Qed.

Lemma ParseLine_keeps_setup now d line :
  errorPatterns (fst (ParseLine now d line)) = errorPatterns d /\
  slowPatterns (fst (ParseLine now d line)) = slowPatterns d /\
  suspiciousIPs (fst (ParseLine now d line)) = suspiciousIPs d /\
  config (fst (ParseLine now d line)) = config d.
Proof.
  destruct (ParseLine_stages now d line)
    as (d1 & e1 & _ & _ & _ & (H1 & H2 & H3 & H4 & _) & Heq).
  cbv zeta in Heq. rewrite Heq.
  match goal with |- context [if ?b then _ else _] => destruct b end;
    simpl; tauto.
Qed.

Lemma parseLines_keeps_setup input :
  forall d,
    errorPatterns (parseLines d input) = errorPatterns d /\
    slowPatterns (parseLines d input) = slowPatterns d /\
    suspiciousIPs (parseLines d input) = suspiciousIPs d /\
    config (parseLines d input) = config d.
Proof.
  unfold parseLines.
  induction input as [|[t l] input IH]; intros d; simpl; [tauto|].
  destruct (IH (fst (ParseLine t d l))) as (A1 & A2 & A3 & A4).
  destruct (ParseLine_keeps_setup t d l) as (B1 & B2 & B3 & B4).
  repeat split; congruence.
Qed.

(** Without patterns the score is the contribution of the level, and only
    the threshold flags an entry. *)
Lemma ParseLine_without_patterns now d line :
  errorPatterns d = [] -> slowPatterns d = [] -> suspiciousIPs d = [] ->
  Score (snd (ParseLine now d line)) =
    levelBase (Level (snd (ParseLine now d line))) /\
  (IsAnomaly (snd (ParseLine now d line)) = true <->
   (AnomalyThreshold (config d) <= Score (snd (ParseLine now d line)))%Z).
Proof.
  intros He Hs Hx.
  destruct (ParseLine_stages now d line) as (d1 & e1 & _ & Hsc & Han & _ & Heq).
  rewrite He, Hs, Hx in Heq. cbv zeta in Heq. unfold patternLoop in Heq.
  simpl fold_left in Heq. rewrite Heq.
  destruct (Z.geb_spec (Score e1) (AnomalyThreshold (config d))) as [Hge|Hlt];
    simpl; (split; [exact Hsc|]).
  - split; [lia | reflexivity].
  - rewrite Han. split; [discriminate | lia].
Qed.

(** C7: when a configured pattern of any category does not compile,
    [CompilePatterns] returns no slices and the error of such a pattern;
    [NewDetectorWithConfig] still returns a detector, one with three empty
    pattern lists (and reports that error); from then on every line gets
    the contribution of its level as its score and is flagged only by the
    threshold. *)
Theorem CompilePatterns_failure_recovery now cfg :
  (exists pattern err,
     In pattern
       (ErrorPatterns cfg ++ SlowPatterns cfg ++ SuspiciousPatterns cfg)%list /\
     regexp_Compile pattern = inr err) ->
  exists pattern err,
    In pattern
      (ErrorPatterns cfg ++ SlowPatterns cfg ++ SuspiciousPatterns cfg)%list /\
    regexp_Compile pattern = inr err /\
    CompilePatterns cfg = ([], [], [], Some err) /\
    snd (NewDetectorWithConfig now cfg) = Some err /\
    errorPatterns (fst (NewDetectorWithConfig now cfg)) = [] /\
    slowPatterns (fst (NewDetectorWithConfig now cfg)) = [] /\
    suspiciousIPs (fst (NewDetectorWithConfig now cfg)) = [] /\
    forall input now' line,
      let e := snd (ParseLine now'
                      (parseLines (fst (NewDetectorWithConfig now cfg)) input)
                      line) in
      Score e = levelBase (Level e) /\
      (IsAnomaly e = true <-> (AnomalyThreshold cfg <= Score e)%Z).
Proof.
  intros Hbad.
  destruct (CompilePatterns_first_failure cfg Hbad) as (p & err & Hin & Hp & Hc).
  exists p, err. split; [exact Hin|]. split; [exact Hp|]. split; [exact Hc|].
  unfold NewDetectorWithConfig. rewrite Hc. simpl fst. simpl snd.
  repeat (split; [reflexivity|]).
  intros input now' line.
  set (d := {| errorPatterns := []; slowPatterns := []; suspiciousIPs := [];
               errorKeywords := _; lineCount := 0; errorCount := 0;
               warnCount := 0; anomalyCount := 0; startTime := now;
               config := cfg |}).
  destruct (parseLines_keeps_setup input d) as (A1 & A2 & A3 & A4).
  pose proof (ParseLine_without_patterns now' (parseLines d input) line A1 A2 A3)
    as Hw.
  rewrite A4 in Hw. exact Hw.
Qed.

End Compilation.

(** ** The level pattern *)

Section LevelPattern.

(** Case analysis on membership in a list that is written out. *)
Ltac in_cases H :=
  simpl in H;
  repeat (destruct H as [H|H]; [symmetry in H; subst|]);
  try (exfalso; exact H).

Lemma litFold_sound (w s t rest : string) :
  litFold w s = Some (t, rest) -> s = t ++ rest /\ EqualFold t w = true.
Proof.
  revert s t. induction w as [|y w IH]; intros s t; simpl.
  - intros [= <- <-]. now split.
  - destruct s as [|c s]; [discriminate|].
    destruct (eqFold c y) eqn:Hc; [|discriminate].
    destruct (litFold w s) as [[m r]|] eqn:Hl; [|discriminate].
    intros [= <- <-]. destruct (IH _ _ Hl) as (-> & Hm).
    simpl. now rewrite Hc, Hm.
Qed.

Lemma litFold_complete (w t rest : string) :
  EqualFold t w = true -> litFold w (t ++ rest) = Some (t, rest).
Proof.
  revert t. induction w as [|y w IH]; intros t; simpl.
  - destruct t; [reflexivity | discriminate].
  - destruct t as [|c t]; simpl; [discriminate|].
    rewrite andb_true_iff. intros (-> & Ht). now rewrite (IH t Ht).
Qed.

Lemma litFold_Some (w s t rest : string) :
  litFold w s = Some (t, rest) <-> s = t ++ rest /\ EqualFold t w = true.
Proof.
  split; [apply litFold_sound|]. intros (-> & Ht). now apply litFold_complete.
Qed.

Lemma spacesBracket_Some (s m : string) :
  spacesBracket s = Some m <->
  exists ws post,
    ws <> "" /\ allBytes isSpaceByte ws = true /\
    s = ws ++ "[" ++ post /\ m = ws ++ "[".
Proof.
  unfold spacesBracket. split.
  - destruct (span isSpaceByte s) as [ws b] eqn:Hsp.
    apply span_spec in Hsp as (-> & Hws & Hb).
    destruct ws as [|x ws]; [discriminate|].
    destruct b as [|c b]; [discriminate|].
    destruct (Ascii.eqb_spec c "[") as [->|Hne]; [|discriminate].
    intros [= <-]. exists (String x ws), b. repeat split; try assumption.
    discriminate.
  - intros (ws & post & Hne & Hws & -> & ->).
    rewrite (span_append isSpaceByte ws ("[" ++ post) Hws) by reflexivity.
    destruct ws; [congruence | reflexivity].
Qed.

Lemma groupAt_sound (words : list string) (s : string) (r : list string) :
  groupAt words s = Some r ->
  exists w tok ws post,
    In w words /\ EqualFold tok w = true /\
    ws <> "" /\ allBytes isSpaceByte ws = true /\
    s = tok ++ ws ++ "[" ++ post /\ r = [tok ++ ws ++ "["; tok].
Proof.
  induction words as [|w words IH]; simpl; [discriminate|].
  destruct (litFold w s) as [[tok rest]|] eqn:Hl.
  - destruct (spacesBracket rest) as [tail|] eqn:Hsb.
    + intros [= <-]. apply litFold_Some in Hl as (-> & Htok).
      apply spacesBracket_Some in Hsb as (ws & post & Hne & Hws & -> & ->).
      exists w, tok, ws, post. repeat split; auto.
    + intros Hg. destruct (IH Hg) as (w' & tok' & ws & post & Hin & Hrest).
      exists w', tok', ws, post. tauto.
  - intros Hg. destruct (IH Hg) as (w' & tok' & ws & post & Hin & Hrest).
    exists w', tok', ws, post. tauto.
Qed.

Lemma EqualFold_upper (t w : string) :
  allBytes isUpperByte w = true ->
  (EqualFold t w = true <-> mapBytes upperByte t = w).
Proof.
  revert t. induction w as [|y w IH]; intros t Hw.
  - destruct t; simpl; split; congruence.
  - simpl in Hw. apply andb_true_iff in Hw as [Hy Hw].
    destruct t as [|c t]; simpl; [split; discriminate|].
    rewrite andb_true_iff, (eqFold_upper c y Hy), Ascii.eqb_eq, (IH t Hw).
    split; [intros (-> & ->); reflexivity | intros [= -> ->]; now split].
Qed.

(** The level words, as far as the proofs look at them. *)
Lemma levelWords_upper (w : string) :
  In w levelWords ->
  allBytes isUpperByte w = true /\ w <> "" /\ exists l, wordLevel w = Some l.
Proof.
  unfold levelWords. intros Hw.
  in_cases Hw;
    (split; [reflexivity | split; [discriminate | eexists; reflexivity]]).
Qed.

Lemma wordLevel_Some (u : string) (l : LogLevel) :
  wordLevel u = Some l -> In u levelWords.
Proof.
  unfold wordLevel, levelWords.
  repeat match goal with
         | |- context [?a =? ?b] =>
             destruct (String.eqb_spec a b) as [->|?]; [simpl; tauto|]
         end.
  discriminate.
Qed.

Lemma letters_of_upper (t : string) :
  allBytes isUpperByte (mapBytes upperByte t) = true ->
  isASCII t = true /\ allBytes isWordByte t = true.
Proof.
  induction t as [|c t IH]; simpl; [tauto|].
  rewrite andb_true_iff. intros (Hc & Ht).
  destruct (upper_letter_byte c Hc) as (Ha & Hw & _).
  destruct (IH Ht) as (-> & ->). now rewrite Ha, Hw.
Qed.

Lemma litFold_head (y c : ascii) (w s t r : string) :
  litFold (String y w) (String c s) = Some (t, r) -> eqFold c y = true.
Proof. simpl. destruct (eqFold c y); [reflexivity | discriminate]. Qed.

(** The level words start with six different letters, so at most one of
    them matches at a position. *)
Lemma levelWords_unique (s w w' t r t' r' : string) :
  In w levelWords -> In w' levelWords ->
  litFold w s = Some (t, r) -> litFold w' s = Some (t', r') -> w = w'.
Proof.
  intros Hw Hw' Hl Hl'. destruct s as [|c s].
  - destruct (levelWords_upper w Hw) as (_ & Hne & _).
    destruct w; [congruence | discriminate].
  - unfold levelWords in Hw, Hw'.
    in_cases Hw; in_cases Hw'; try reflexivity;
      apply litFold_head in Hl, Hl';
      rewrite eqFold_upper in Hl, Hl' by reflexivity;
      apply Ascii.eqb_eq in Hl, Hl'; congruence.
Qed.

Lemma groupAt_complete (words : list string) (w tok ws post : string) :
  (forall w', In w' words -> In w' levelWords) ->
  In w words -> In w levelWords -> EqualFold tok w = true ->
  ws <> "" -> allBytes isSpaceByte ws = true ->
  groupAt words (tok ++ ws ++ "[" ++ post) = Some [tok ++ ws ++ "["; tok].
Proof.
  intros Hsub Hin Hw Htok Hne Hws.
  pose proof (litFold_complete w tok (ws ++ "[" ++ post) Htok) as Hl.
  assert (Hsb : spacesBracket (ws ++ "[" ++ post) = Some (ws ++ "["))
    by (apply spacesBracket_Some; exists ws, post; auto).
  induction words as [|w0 words IH]; [destruct Hin|]. cbn [groupAt].
  destruct (litFold w0 (tok ++ ws ++ "[" ++ post)) as [[t' r']|] eqn:Hl0.
  - assert (w0 = w)
      by (eapply levelWords_unique; eauto; apply Hsub; now left).
    subst w0. rewrite Hl in Hl0. injection Hl0 as <- <-.
    simpl append in Hsb |- *. now rewrite Hsb.
  - destruct Hin as [->|Hin]; [congruence|].
    apply IH; [|exact Hin]. intros w' Hw'. apply Hsub. now right.
Qed.

(** A match of the group at a word boundary is a structured token there. *)
Lemma match_here_token (line pre rem : string) (r : list string) :
  line = pre ++ rem ->
  wordBoundary (lastByte pre) rem = true ->
  groupAt levelWords rem = Some r ->
  exists tok l ws,
    structuredTokenAt line pre tok l /\ r = [tok ++ ws ++ "["; tok].
Proof.
  intros -> Hb Hg.
  destruct (groupAt_sound _ _ _ Hg)
    as (w & tok & ws & post & Hin & Htok & Hne & Hws & -> & ->).
  destruct (levelWords_upper w Hin) as (Hup & Hwne & l & Hl).
  apply (EqualFold_upper tok w Hup) in Htok.
  exists tok, l, ws. split; [|reflexivity].
  assert (Hletters : allBytes isWordByte tok = true).
  { apply letters_of_upper. now rewrite Htok. }
  repeat split.
  - destruct tok as [|c tok]; [simpl in Htok; congruence|].
    simpl in Hletters. apply andb_true_iff in Hletters as [Hc _].
    unfold wordBoundary in Hb. simpl in Hb. rewrite Hc in Hb.
    destruct (lastByte pre) as [x|]; [|exact I].
    destruct (isWordByte x); [discriminate | reflexivity].
  - now rewrite Htok.
  - exists ws, post. auto.
Qed.

(** A structured token is a match of the group at a word boundary. *)
Lemma token_match_here (line pre tok : string) (l : LogLevel) :
  structuredTokenAt line pre tok l ->
  exists ws post,
    line = pre ++ tok ++ ws ++ "[" ++ post /\
    wordBoundary (lastByte pre) (tok ++ ws ++ "[" ++ post) = true /\
    groupAt levelWords (tok ++ ws ++ "[" ++ post) =
      Some [tok ++ ws ++ "["; tok].
Proof.
  intros (Hpre & Hl & ws & post & Hne & Hws & ->).
  exists ws, post. split; [reflexivity|].
  pose proof (wordLevel_Some _ _ Hl) as Hin.
  destruct (levelWords_upper _ Hin) as (Hup & Hwne & _).
  destruct (letters_of_upper tok Hup) as (_ & Hletters).
  split.
  - destruct tok as [|c tok]; [simpl in Hwne; congruence|].
    simpl in Hletters. apply andb_true_iff in Hletters as [Hc _].
    unfold wordBoundary. simpl. rewrite Hc.
    destruct (lastByte pre) as [x|]; [now rewrite Hpre | reflexivity].
  - apply (groupAt_complete levelWords (mapBytes upperByte tok)); auto.
    now apply EqualFold_upper.
Qed.

Lemma findLevel_here (prev : option ascii) (s : string) (r : list string) :
  wordBoundary prev s = true -> groupAt levelWords s = Some r ->
  findLevel prev s = r.
Proof.
  intros Hb Hg. destruct s; cbn [findLevel]; now rewrite Hb, Hg.
Qed.

Lemma findLevel_next (prev : option ascii) (c : ascii) (s : string) :
  (if wordBoundary prev (String c s)
   then groupAt levelWords (String c s) else None) = None ->
  findLevel prev (String c s) = findLevel (Some c) s.
Proof. intros Hn. cbn [findLevel]. now rewrite Hn. Qed.

Lemma findLevel_empty (prev : option ascii) : findLevel prev "" = [].
Proof.
  simpl. now destruct (wordBoundary prev "").
Qed.

(** The search from the position after [pre0] reports the leftmost
    structured token. *)
Lemma findLevel_leftmost (line tok ws post : string) (l : LogLevel) :
  forall pre1 pre0,
    line = pre0 ++ pre1 ++ tok ++ ws ++ "[" ++ post ->
    structuredTokenAt line (pre0 ++ pre1) tok l ->
    ws <> "" -> allBytes isSpaceByte ws = true ->
    (forall pre' tok' l',
       structuredTokenAt line pre' tok' l' ->
       (String.length (pre0 ++ pre1) <= String.length pre')%nat) ->
    findLevel (lastByte pre0) (pre1 ++ tok ++ ws ++ "[" ++ post) =
      [tok ++ ws ++ "["; tok].
Proof.
  induction pre1 as [|c pre1 IH]; intros pre0 Hline Htok Hne Hws Hleft.
  - rewrite append_nil_r in Htok.
    change (findLevel (lastByte pre0) (tok ++ ws ++ "[" ++ post) =
            [tok ++ ws ++ "["; tok]).
    destruct (token_match_here _ _ _ _ Htok) as (ws' & post' & Hl' & Hb & _).
    assert (Hsame : tok ++ ws' ++ "[" ++ post' = tok ++ ws ++ "[" ++ post).
    { rewrite Hline in Hl'. symmetry. now apply append_inv_head in Hl'. }
    rewrite Hsame in Hb. apply findLevel_here; [exact Hb|].
    destruct Htok as (_ & Hlv & _).
    pose proof (wordLevel_Some _ _ Hlv) as Hin.
    destruct (levelWords_upper _ Hin) as (Hup & _ & _).
    apply (groupAt_complete levelWords (mapBytes upperByte tok)); auto.
    now apply EqualFold_upper.
  - change (String c pre1 ++ tok ++ ws ++ "[" ++ post)
      with (String c (pre1 ++ tok ++ ws ++ "[" ++ post)) in *.
    destruct (if wordBoundary (lastByte pre0)
                   (String c (pre1 ++ tok ++ ws ++ "[" ++ post))
              then groupAt levelWords (String c (pre1 ++ tok ++ ws ++ "[" ++ post))
              else None) as [r|] eqn:Hhere.
    + exfalso.
      destruct (wordBoundary (lastByte pre0)
                  (String c (pre1 ++ tok ++ ws ++ "[" ++ post))) eqn:Hb;
        [|discriminate].
      destruct (match_here_token line pre0 _ r Hline Hb Hhere)
        as (tok' & l' & _ & Htok' & _).
      specialize (Hleft _ _ _ Htok'). rewrite length_append in Hleft.
      simpl in Hleft. lia.
    + rewrite (findLevel_next _ _ _ Hhere).
      rewrite <- (lastByte_snoc pre0 c).
      apply IH; try assumption.
      * rewrite append_assoc. exact Hline.
      * rewrite append_assoc. exact Htok.
      * intros pre' tok' l' H'. rewrite append_assoc. simpl. eauto.
Qed.

(** Without a structured token the search finds nothing. *)
Lemma findLevel_none (line : string) :
  (forall pre tok l, ~ structuredTokenAt line pre tok l) ->
  forall rem pre0,
    line = pre0 ++ rem -> findLevel (lastByte pre0) rem = [].
Proof.
  intros Hno. induction rem as [|c rem IH]; intros pre0 Hline.
  - apply findLevel_empty.
  - destruct (if wordBoundary (lastByte pre0) (String c rem)
              then groupAt levelWords (String c rem) else None)
      as [r|] eqn:Hhere.
    + exfalso.
      destruct (wordBoundary (lastByte pre0) (String c rem)) eqn:Hb;
        [|discriminate].
      destruct (match_here_token line pre0 _ r Hline Hb Hhere)
        as (tok & l & _ & Htok & _).
      exact (Hno _ _ _ Htok).
    + rewrite (findLevel_next _ _ _ Hhere), <- (lastByte_snoc pre0 c).
      apply IH. now rewrite append_assoc.
Qed.

(** With a structured token the search finds a match and its group. *)
Lemma findLevel_found (line tok : string) (l : LogLevel) :
  forall pre1 pre0 rem,
    line = pre0 ++ pre1 ++ rem ->
    structuredTokenAt line (pre0 ++ pre1) tok l ->
    exists m t, findLevel (lastByte pre0) (pre1 ++ rem) = [m; t].
Proof.
  induction pre1 as [|c pre1 IH]; intros pre0 rem Hline Htok.
  - rewrite append_nil_r in Htok.
    destruct (token_match_here _ _ _ _ Htok) as (ws & post & Hl & Hb & Hg).
    rewrite Hline in Hl. apply append_inv_head in Hl.
    rewrite Hl, (findLevel_here _ _ _ Hb Hg). eauto.
  - change (String c pre1 ++ rem) with (String c (pre1 ++ rem)) in *.
    destruct (if wordBoundary (lastByte pre0) (String c (pre1 ++ rem))
              then groupAt levelWords (String c (pre1 ++ rem)) else None)
      as [r|] eqn:Hhere.
    + destruct (wordBoundary (lastByte pre0) (String c (pre1 ++ rem))) eqn:Hb;
        [|discriminate].
      rewrite (findLevel_here _ _ _ Hb Hhere).
      destruct (groupAt_sound _ _ _ Hhere)
        as (_ & t & ws & _ & _ & _ & _ & _ & _ & ->).
      eauto.
    + rewrite (findLevel_next _ _ _ Hhere), <- (lastByte_snoc pre0 c).
      apply IH; now rewrite append_assoc.
Qed.

(** The pattern finds nothing exactly in the lines without a structured
    token. *)
Lemma no_structured_token_iff (line : string) :
  levelPattern_FindStringSubmatch line = [] <->
  forall pre tok l, ~ structuredTokenAt line pre tok l.
Proof.
  unfold levelPattern_FindStringSubmatch. split.
  - intros Hnil pre tok l Htok.
    pose proof Htok as (_ & _ & ws & post & _ & _ & Hline).
    destruct (findLevel_found line tok l pre "" (tok ++ ws ++ "[" ++ post))
      as (m & t & Hf); [exact Hline | exact Htok |].
    simpl lastByte in Hf. rewrite <- Hline in Hf. congruence.
  - intros Hno. exact (findLevel_none line Hno line "" eq_refl).
Qed.

End LevelPattern.

(** ** The level of a line *)

Section Levels.
Context `{GoLib}.

Lemma structuredLevel_Level (u : string) (d : AnomalyDetector) (e : LogEntry)
    (l : LogLevel) :
  wordLevel u = Some l -> Level (snd (structuredLevel u d e)) = l.
Proof.
  unfold wordLevel, structuredLevel.
  destruct (u =? "FATAL"); [simpl; congruence|].
  destruct (u =? "CRITICAL"); [simpl; congruence|]. simpl orb. cbv iota.
  destruct (u =? "ERROR"); [simpl; congruence|].
  destruct (u =? "WARN"); [simpl; congruence|].
  destruct (u =? "INFO"); [simpl; congruence|].
  destruct (u =? "DEBUG"); [simpl; congruence | discriminate].
Qed.

Lemma keywordLevel_Level (lineLower : string) (d : AnomalyDetector)
    (e : LogEntry) :
  Level (snd (keywordLevel lineLower d e)) =
  if Contains lineLower "fatal" || Contains lineLower "critical" then FATAL
  else if Contains lineLower "error" && negb (Contains lineLower "errors=0")
       then ERROR
  else if Contains lineLower "warn" then WARN
  else if Contains lineLower "info" then INFO
  else DEBUG.
Proof.
  unfold keywordLevel.
  repeat match goal with
         | |- context [if ?b then _ else _] => destruct b
         end; reflexivity.
Qed.

(** On an ASCII line a keyword is found in the lower-cased line exactly
    when a piece of the line becomes the keyword by lower-casing. *)
Lemma containsFold_ascii (line keyword : string) :
  isASCII line = true ->
  (containsFold line keyword = true <->
   exists pre mid post,
     line = pre ++ mid ++ post /\ mapBytes lowerByte mid = keyword).
Proof.
  intros Hascii. unfold containsFold, ToLower. rewrite Hascii, Contains_spec.
  split.
  - intros (pre' & post' & Hl).
    apply mapBytes_split in Hl as (pre & rest & -> & <- & Hrest).
    apply mapBytes_split in Hrest as (mid & post & -> & <- & _).
    now exists pre, mid, post.
  - intros (pre & mid & post & -> & <-).
    exists (mapBytes lowerByte pre), (mapBytes lowerByte post).
    now rewrite !mapBytes_append.
Qed.

(** C5: on a line without a structured token the level is the outcome of
    the first fallback rule that holds, in the order FATAL or CRITICAL,
    ERROR, WARN, INFO, and DEBUG when none holds; a line with [errors=0] in
    it never comes out as ERROR.  The keywords are looked for in the
    lower-cased line, which on an ASCII line is the search for the keyword
    in any letter case. *)
Theorem ParseLine_keyword_fallback now d line :
  (forall pre tok l, ~ structuredTokenAt line pre tok l) ->
  Level (snd (ParseLine now d line)) = firstMatch fallbackRules DEBUG line /\
  (containsFold line "errors=0" = true ->
   Level (snd (ParseLine now d line)) <> ERROR) /\
  (isASCII line = true ->
   forall keyword,
     containsFold line keyword = true <->
     exists pre mid post,
       line = pre ++ mid ++ post /\ mapBytes lowerByte mid = keyword).
Proof.
  intros Hno. apply no_structured_token_iff in Hno.
  rewrite ParseLine_Level. unfold levelStage.
  rewrite FindStringSubmatch_levelPattern, Hno. simpl List.length.
  change (Z.of_nat 0 >? 1)%Z with false. cbv iota.
  rewrite keywordLevel_Level.
  split; [reflexivity|]. split.
  - unfold containsFold. intros ->. rewrite andb_false_r.
    repeat match goal with
           | |- context [if ?b then _ else _] => destruct b
           end; discriminate.
  - intros Hascii keyword. now apply containsFold_ascii.
Qed.

(** C6, as amended: the level of a line is the level of its leftmost
    structured token, a level word in any letter case that starts at a word
    boundary and is followed by white space and an opening bracket, with
    CRITICAL standing for FATAL. *)
Theorem ParseLine_structured_level now d line pre tok l :
  structuredTokenAt line pre tok l ->
  (forall pre' tok' l',
     structuredTokenAt line pre' tok' l' ->
     (String.length pre <= String.length pre')%nat) ->
  Level (snd (ParseLine now d line)) = l.
Proof.
  intros Htok Hleft.
  pose proof Htok as (_ & Hl & ws & post & Hne & Hws & Hline).
  assert (Hfind : levelPattern_FindStringSubmatch line = [tok ++ ws ++ "["; tok]).
  { unfold levelPattern_FindStringSubmatch. rewrite Hline at 1.
    apply (findLevel_leftmost line tok ws post l pre ""); assumption. }
  rewrite ParseLine_Level. unfold levelStage.
  rewrite FindStringSubmatch_levelPattern, Hfind.
  simpl List.length. change (Z.of_nat 2 >? 1)%Z with true. cbv iota.
  simpl nth.
  pose proof (wordLevel_Some _ _ Hl) as Hin.
  destruct (levelWords_upper _ Hin) as (Hup & _ & _).
  destruct (letters_of_upper tok Hup) as (Hascii & _).
  unfold ToUpper. rewrite Hascii. now apply structuredLevel_Level.
Qed.

End Levels.


(** ** The properties on concrete inputs *)

Section Concrete.
Import LiteralEngine.
#[local] Existing Instance LiteralEngine.lib.

(** C1, witness: a WARN line matched by one slow and one suspicious
    pattern scores 20 + 25 + 40. *)
Lemma ParseLine_Score_witness :
  (100 + 30 * Z.of_nat (List.length (errorPatterns literalDetector))
       + 25 * Z.of_nat (List.length (slowPatterns literalDetector))
       + 40 * Z.of_nat (List.length (suspiciousIPs literalDetector))
   <= int_max)%Z /\
  Score (snd (ParseLine 1%Z literalDetector
                "2024 Warn   [db] slow, access denied")) = 85%Z.
Proof.
  assert (Hfit : (100 + 30 * Z.of_nat (List.length (errorPatterns literalDetector))
                  + 25 * Z.of_nat (List.length (slowPatterns literalDetector))
                  + 40 * Z.of_nat (List.length (suspiciousIPs literalDetector))
                  <= int_max)%Z) by (vm_compute; discriminate).
  split; [exact Hfit|].
  rewrite (@ParseLine_Score lib 1%Z literalDetector
             "2024 Warn   [db] slow, access denied" Hfit).
  reflexivity.
Defined.

(** C4, witness: a line flagged by a pattern below the threshold leaves the
    counter alone. *)
Lemma ParseLine_anomalyCount_witness :
  in_range (anomalyCount literalDetector) /\
  anomalyCount (fst (ParseLine 1%Z literalDetector "cache is slow")) =
  anomalyCount literalDetector.
Proof.
  assert (Hr : in_range (anomalyCount literalDetector))
    by (split; vm_compute; discriminate).
  split; [exact Hr|].
  apply (proj2 (@ParseLine_anomalyCount lib 1%Z literalDetector "cache is slow" Hr)).
  reflexivity.
Defined.

(** C5, witness: a line with [error] and [errors=0] and no other keyword is
    a DEBUG line. *)
Lemma ParseLine_keyword_fallback_witness :
  (forall pre tok l,
     ~ structuredTokenAt "batch done, errors=0, no error" pre tok l) /\
  Level (snd (ParseLine 1%Z literalDetector "batch done, errors=0, no error"))
  = DEBUG.
Proof.
  assert (Hno : forall pre tok l,
             ~ structuredTokenAt "batch done, errors=0, no error" pre tok l)
    by (apply no_structured_token_iff; reflexivity).
  split; [exact Hno|].
  rewrite (proj1 (@ParseLine_keyword_fallback lib 1%Z literalDetector
                    "batch done, errors=0, no error" Hno)).
  reflexivity.
Defined.

(** C6, witness: [Critical], followed by two spaces and a bracket, at the
    start of the line. *)
Lemma ParseLine_structured_level_witness :
  structuredTokenAt "Critical  [db] disk failure" "" "Critical" FATAL /\
  Level (snd (ParseLine 1%Z literalDetector "Critical  [db] disk failure"))
  = FATAL.
Proof.
  assert (Htok : structuredTokenAt "Critical  [db] disk failure" ""
                   "Critical" FATAL).
  { split; [exact I|]. split; [reflexivity|].
    exists "  ", "db] disk failure".
    split; [discriminate|]. split; reflexivity. }
  split; [exact Htok|].
  apply (@ParseLine_structured_level lib 1%Z literalDetector
           "Critical  [db] disk failure" "" "Critical" FATAL Htok).
  intros pre' tok' l' _. simpl. lia.
Defined.

(** C6, as stated, fails: a line with two structured tokens has the level
    of the first one, not of the second. *)
Lemma second_token_not_the_level :
  structuredTokenAt "INFO [a] ERROR [b]" "INFO [a] " "ERROR" ERROR /\
  Level (snd (ParseLine 1%Z literalDetector "INFO [a] ERROR [b]")) <> ERROR.
Proof.
  split.
  - split; [reflexivity|]. split; [reflexivity|].
    exists " ", "b]". split; [discriminate|]. split; reflexivity.
  - vm_compute. discriminate.
Qed.

(** C7, witness: the slow pattern ["("] does not compile. *)
Lemma CompilePatterns_failure_recovery_witness :
  (exists pattern err,
     In pattern
       (ErrorPatterns brokenConfig ++ SlowPatterns brokenConfig
        ++ SuspiciousPatterns brokenConfig)%list /\
     regexp_Compile pattern = inr err) /\
  errorPatterns (fst (NewDetectorWithConfig 0%Z brokenConfig)) = [] /\
  Score (snd (ParseLine 2%Z
                (parseLines (fst (NewDetectorWithConfig 0%Z brokenConfig))
                   [(1%Z, "request failed")])
                "ERROR [db] timeout, access denied")) = 50%Z.
Proof.
  assert (Hbad : exists pattern err,
             In pattern
               (ErrorPatterns brokenConfig ++ SlowPatterns brokenConfig
                ++ SuspiciousPatterns brokenConfig)%list /\
             regexp_Compile pattern = inr err).
  { exists "(", "error parsing regexp: (". split; [simpl; tauto | reflexivity]. }
  split; [exact Hbad|].
  destruct (@CompilePatterns_failure_recovery lib 0%Z brokenConfig Hbad)
    as (p & err & _ & _ & _ & _ & He & _ & _ & Hlines).
  split; [exact He|].
  rewrite (proj1 (Hlines [(1%Z, "request failed")] 2%Z
                    "ERROR [db] timeout, access denied")).
  reflexivity.
Defined.

(** C8, witness: the component [db] is included and excluded. *)
Lemma ShouldShow_excluded_component_witness :
  In (extractComponent "ERROR [db] disk failure")
    (ExcludeComponents literalConfig) /\
  In (extractComponent "ERROR [db] disk failure")
    (IncludeComponents literalConfig) /\
  ShouldShow literalConfig
    (mkLogEntry 1%Z ERROR "ERROR [db] disk failure" "ERROR [db] disk failure"
       true 50) = false.
Proof.
  assert (Hex : In (extractComponent "ERROR [db] disk failure")
                  (ExcludeComponents literalConfig)) by (simpl; tauto).
  split; [exact Hex|]. split; [simpl; tauto|].
  exact (proj1 (@ShouldShow_excluded_component lib literalConfig
                  (mkLogEntry 1%Z ERROR "ERROR [db] disk failure"
                     "ERROR [db] disk failure" true 50)) Hex).
Defined.


(** C10, witness: the default configuration, and the same with [ShowDebug]
    and [ShowInfo] set. *)
Lemma ShouldShow_depends_only_on_witness :
  ShouldShow (set_ShowInfo true (set_ShowDebug true DefaultConfig))
    (mkLogEntry 1%Z INFO "started" "INFO started" false 0) =
  ShouldShow DefaultConfig
    (mkLogEntry 2%Z INFO "INFO started" "INFO started" true 0).
Proof.
  exact (@ShouldShow_depends_only_on lib
           (set_ShowInfo true (set_ShowDebug true DefaultConfig)) DefaultConfig
           (mkLogEntry 1%Z INFO "started" "INFO started" false 0)
           (mkLogEntry 2%Z INFO "INFO started" "INFO started" true 0)
           eq_refl eq_refl eq_refl eq_refl eq_refl).
Defined.

(** The detector on a line of [test_logs.sh]: the keyword gives ERROR, the
    pattern [timeout] adds 30, and 80 is above the threshold. *)
Example ParseLine_timeout_line :
  let e := snd (ParseLine 1%Z literalDetector
                  "2024-01-03 10:25:01 ERROR Database connection timeout after 30s")
  in (Level e, Score e, IsAnomaly e) = (ERROR, 80%Z, true).
Proof. reflexivity. Qed.

(** An INFO line of [test_logs.sh]: no score, no anomaly, and hidden under
    the default minimum level. *)
Example ParseLine_info_line :
  let e := snd (ParseLine 1%Z literalDetector
                  "2024-01-03 10:23:45 INFO Application started successfully")
  in (Level e, Score e, IsAnomaly e, ShouldShow DefaultConfig e) =
     (INFO, 0%Z, false, false).
Proof. reflexivity. Qed.

(** A line in the format of the README: the structured token wins over the
    keyword [fatal] later in the line. *)
Example ParseLine_structured_line :
  let e := snd (ParseLine 1%Z literalDetector
                  "2026-01-03 23:06:04 WARN  [indexer] not fatal; retrying")
  in (Level e, Score e, extractComponent (Raw e)) = (WARN, 20%Z, "indexer").
Proof. reflexivity. Qed.

End Concrete.

(** * Further properties of the program *)

(** ** The counters of the detector *)

Section Counters.
Context `{GoLib}.

Lemma structuredLevel_levelCounted levelStr d e :
  levelCounted d (structuredLevel levelStr d e).
Proof.
  unfold structuredLevel, levelCounted.
  destruct (levelStr =? "FATAL"), (levelStr =? "CRITICAL"),
    (levelStr =? "ERROR"), (levelStr =? "WARN"), (levelStr =? "INFO");
    simpl; repeat split.
Qed.

Lemma keywordLevel_levelCounted lineLower d e :
  levelCounted d (keywordLevel lineLower d e).
Proof.
  unfold keywordLevel, levelCounted.
  destruct (Contains lineLower "fatal"), (Contains lineLower "critical"),
    (Contains lineLower "error"), (Contains lineLower "errors=0"),
    (Contains lineLower "warn"), (Contains lineLower "info");
    simpl; repeat split.
Qed.

Lemma levelStage_levelCounted now d line :
  levelCounted (incr_lineCount d) (levelStage now d line).
Proof.
  unfold levelStage.
  destruct (Z.of_nat (List.length (FindStringSubmatch levelPattern line)) >? 1)%Z;
    [apply structuredLevel_levelCounted | apply keywordLevel_levelCounted].
Qed.

(** The four counters after one call. *)
Lemma ParseLine_step_counts now d line :
  lineCount (fst (ParseLine now d line)) = incr (lineCount d) /\
  errorCount (fst (ParseLine now d line)) =
    (if isErrorLevel (Level (snd (ParseLine now d line)))
     then incr (errorCount d) else errorCount d) /\
  warnCount (fst (ParseLine now d line)) =
    (if isWarnLevel (Level (snd (ParseLine now d line)))
     then incr (warnCount d) else warnCount d) /\
  anomalyCount (fst (ParseLine now d line)) =
    (if (Score (snd (ParseLine now d line)) >=? AnomalyThreshold (config d))%Z
     then incr (anomalyCount d) else anomalyCount d).
Proof.
  rewrite ParseLine_Level.
  destruct (ParseLine_stages now d line)
    as (d1 & e1 & Hst & _ & _ & (_ & _ & _ & _ & HA) & Heq).
  pose proof (levelStage_levelCounted now d line) as (HL & HE & HW).
  rewrite Hst in HL, HE, HW |- *. simpl in HL, HE, HW |- *.
  cbv zeta in Heq. rewrite Heq.
  match goal with
  | |- context [if ?b then _ else _] => destruct b eqn:Hthr
  end; cbn [fst snd Level Score set_Message set_IsAnomaly incr_anomalyCount
            lineCount errorCount warnCount anomalyCount];
    rewrite ?Hthr, ?HA; auto.
Qed.

(** X1: [ParseLine] counts every line in [lineCount], the lines it
    classifies as ERROR or FATAL in [errorCount] and the lines it
    classifies as WARN in [warnCount], one increment each; INFO and DEBUG
    lines leave both alone. *)
Theorem ParseLine_counters now d line :
  lineCount (fst (ParseLine now d line)) = incr (lineCount d) /\
  errorCount (fst (ParseLine now d line)) =
    (if isErrorLevel (Level (snd (ParseLine now d line)))
     then incr (errorCount d) else errorCount d) /\
  warnCount (fst (ParseLine now d line)) =
    (if isWarnLevel (Level (snd (ParseLine now d line)))
     then incr (warnCount d) else warnCount d).
Proof.
  destruct (ParseLine_step_counts now d line) as (HL & HE & HW & _).
  auto.
Qed.

(** The level switches return the same entry whatever the detector. *)
Lemma levelStage_entry now d d' line :
  snd (levelStage now d line) = snd (levelStage now d' line).
Proof.
  unfold levelStage.
  destruct (Z.of_nat (List.length (FindStringSubmatch levelPattern line)) >? 1)%Z.
  - unfold structuredLevel.
    repeat match goal with
           | |- context [if ?b then _ else _] => destruct b
           end; reflexivity.
  - unfold keywordLevel.
    repeat match goal with
           | |- context [if ?b then _ else _] => destruct b
           end; reflexivity.
Qed.

(** The entry depends on the detector through its patterns and its
    threshold only. *)
Lemma ParseLine_entry_ext now d d' line :
  errorPatterns d = errorPatterns d' ->
  slowPatterns d = slowPatterns d' ->
  suspiciousIPs d = suspiciousIPs d' ->
  AnomalyThreshold (config d) = AnomalyThreshold (config d') ->
  snd (ParseLine now d line) = snd (ParseLine now d' line).
Proof.
  intros HE HS HX HT.
  destruct (ParseLine_stages now d line) as (d1 & e1 & Hst & _ & _ & _ & Heq).
  destruct (ParseLine_stages now d' line) as (d1' & e1' & Hst' & _ & _ & _ & Heq').
  pose proof (levelStage_entry now d d' line) as Hent.
  rewrite Hst, Hst' in Hent. simpl in Hent. subst e1'.
  cbv zeta in Heq, Heq'. rewrite Heq, Heq', HE, HS, HX, HT.
  match goal with |- context [if ?b then _ else _] => destruct b end;
    reflexivity.
Qed.

(** X2: in a run every line gets the entry it would get from the detector
    the run started with: the counters that earlier lines have moved do not
    show in the entries. *)
Theorem runEntries_stateless (d : AnomalyDetector)
    (input : list (time_Time * string)) :
  runEntries d input =
  map (fun tl => snd (ParseLine (fst tl) d (snd tl))) input.
Proof.
  revert d. induction input as [|tl input IH]; intros d; simpl;
    [reflexivity|].
  f_equal. rewrite IH. apply map_ext. intros tl'.
  destruct (ParseLine_keeps_setup (fst tl) d (snd tl)) as (HE & HS & HX & HC).
  apply ParseLine_entry_ext; congruence.
Qed.

(** The counters after a run, when they start non-negative and have room
    for the lines of the input. *)
Lemma parseLines_counts (input : list (time_Time * string)) :
  forall d : AnomalyDetector,
    (0 <= lineCount d /\ 0 <= errorCount d /\
     0 <= warnCount d /\ 0 <= anomalyCount d)%Z ->
    (lineCount d + Z.of_nat (List.length input) <= int_max /\
     errorCount d + Z.of_nat (List.length input) <= int_max /\
     warnCount d + Z.of_nat (List.length input) <= int_max /\
     anomalyCount d + Z.of_nat (List.length input) <= int_max)%Z ->
    (lineCount (parseLines d input) =
       lineCount d + Z.of_nat (List.length input) /\
     errorCount (parseLines d input) =
       errorCount d
       + countEntries (fun e => isErrorLevel (Level e)) (runEntries d input) /\
     warnCount (parseLines d input) =
       warnCount d
       + countEntries (fun e => isWarnLevel (Level e)) (runEntries d input) /\
     anomalyCount (parseLines d input) =
       anomalyCount d
       + countEntries
           (fun e => Score e >=? AnomalyThreshold (config d))
           (runEntries d input))%Z.
Proof.
  induction input as [|tl input IH]; intros d Hpos Hroom.
  - unfold parseLines, countEntries. simpl. lia.
  - simpl List.length in Hroom. rewrite Nat2Z.inj_succ in Hroom.
    change (parseLines d (tl :: input))
      with (parseLines (fst (ParseLine (fst tl) d (snd tl))) input).
    cbn [runEntries].
    destruct (ParseLine_step_counts (fst tl) d (snd tl)) as (HL & HE & HW & HA).
    destruct (ParseLine_keeps_setup (fst tl) d (snd tl)) as (_ & _ & _ & HC).
    set (d' := fst (ParseLine (fst tl) d (snd tl))) in *.
    set (e := snd (ParseLine (fst tl) d (snd tl))) in *.
    assert (Hincr : forall x, (0 <= x)%Z ->
              (x + Z.succ (Z.of_nat (List.length input)) <= int_max)%Z ->
              incr x = (x + 1)%Z).
    { intros x H0 H1. unfold incr. apply int_add_exact.
      unfold in_range, int_min, int_max in *. lia. }
    rewrite !Hincr in HL, HE, HW, HA by tauto.
    destruct (IH d') as (IL & IE & IW & IA).
    { destruct (isErrorLevel (Level e)), (isWarnLevel (Level e)),
        (Score e >=? AnomalyThreshold (config d))%Z; lia. }
    { destruct (isErrorLevel (Level e)), (isWarnLevel (Level e)),
        (Score e >=? AnomalyThreshold (config d))%Z; lia. }
    rewrite IL, IE, IW, IA, HC. unfold countEntries. simpl filter.
    simpl List.length. rewrite HL, HE, HW, HA.
    destruct (isErrorLevel (Level e)), (isWarnLevel (Level e)),
      (Score e >=? AnomalyThreshold (config d))%Z;
      simpl List.length; lia.
Qed.

Lemma countEntries_bounds (p : LogEntry -> bool) (entries : list LogEntry) :
  (0 <= countEntries p entries <= Z.of_nat (List.length entries))%Z.
Proof.
  unfold countEntries. pose proof (filter_length_le p entries). lia.
Qed.

Lemma countEntries_disjoint (p q : LogEntry -> bool) (entries : list LogEntry) :
  (forall e, p e && q e = false) ->
  (countEntries p entries + countEntries q entries
   <= Z.of_nat (List.length entries))%Z.
Proof.
  intros Hpq. unfold countEntries.
  induction entries as [|e entries IH]; simpl; [lia|].
  specialize (Hpq e). destruct (p e), (q e); simpl List.length;
    try discriminate; lia.
Qed.

Lemma runEntries_length d (input : list (time_Time * string)) :
  List.length (runEntries d input) = List.length input.
Proof.
  revert d. induction input as [|tl input IH]; intros d; simpl;
    [reflexivity | now rewrite IH].
Qed.

(** X3: after a run from a new detector over at most [int_max] lines,
    [lineCount] is the number of lines, [errorCount] the number of ERROR
    and FATAL entries, [warnCount] the number of WARN entries and
    [anomalyCount] the number of entries whose score reaches the threshold;
    so errors and warnings together, and anomalies, are never more than the
    lines. *)
Theorem run_counters now cfg (input : list (time_Time * string)) :
  (Z.of_nat (List.length input) <= int_max)%Z ->
  let d0 := fst (NewDetectorWithConfig now cfg) in
  let d := parseLines d0 input in
  let entries := runEntries d0 input in
  (lineCount d = Z.of_nat (List.length input) /\
   errorCount d = countEntries (fun e => isErrorLevel (Level e)) entries /\
   warnCount d = countEntries (fun e => isWarnLevel (Level e)) entries /\
   anomalyCount d =
     countEntries (fun e => Score e >=? AnomalyThreshold cfg) entries /\
   errorCount d + warnCount d <= lineCount d /\
   0 <= anomalyCount d <= lineCount d)%Z.
Proof.
  intros Hlen d0 d entries.
  assert (Hd0 : lineCount d0 = 0%Z /\ errorCount d0 = 0%Z /\
                warnCount d0 = 0%Z /\ anomalyCount d0 = 0%Z /\
                config d0 = cfg).
  { unfold d0, NewDetectorWithConfig.
    destruct (CompilePatterns cfg) as [[[E S] X] [err|]]; simpl; tauto. }
  destruct Hd0 as (Z1 & Z2 & Z3 & Z4 & Zc).
  destruct (parseLines_counts input d0) as (HL & HE & HW & HA).
  { rewrite Z1, Z2, Z3, Z4. lia. }
  { rewrite Z1, Z2, Z3, Z4. lia. }
  rewrite Z1 in HL. rewrite Z2 in HE. rewrite Z3 in HW. rewrite Z4, Zc in HA.
  fold d entries in HL, HE, HW, HA. simpl in HL, HE, HW, HA.
  repeat split; try assumption.
  - rewrite HL, HE, HW, <- (runEntries_length d0 input). fold entries.
    apply countEntries_disjoint. intros e. now destruct (Level e).
  - rewrite HA. apply countEntries_bounds.
  - rewrite HL, HA, <- (runEntries_length d0 input). apply countEntries_bounds.
Qed.

End Counters.

(** ** Scores and anomalies *)

Section ScoreRange.
Context `{GoLib}.

(** The score lies between the contribution of the level and that
    contribution plus the weights of all patterns. *)
Lemma ParseLine_Score_between now d line :
  scoresFit d ->
  (levelBase (Level (snd (ParseLine now d line)))
   <= Score (snd (ParseLine now d line))
   <= levelBase (Level (snd (ParseLine now d line)))
      + 30 * Z.of_nat (List.length (errorPatterns d))
      + 25 * Z.of_nat (List.length (slowPatterns d))
      + 40 * Z.of_nat (List.length (suspiciousIPs d)))%Z.
Proof.
  unfold scoresFit. intros Hfit.
  destruct (ParseLine_stages now d line) as (d1 & e1 & _ & Hsc & _ & _ & Heq).
  cbv zeta in Heq.
  set (ea := patternLoop 30 (errorPatterns d) line e1) in *.
  set (eb := patternLoop 25 (slowPatterns d) line ea) in *.
  set (ec := patternLoop 40 (suspiciousIPs d) line eb) in *.
  assert (Hbase : (0 <= levelBase (Level e1) <= 100)%Z)
    by (destruct (Level e1); simpl; lia).
  pose proof (matchCount_bounds (errorPatterns d) line) as Be.
  pose proof (matchCount_bounds (slowPatterns d) line) as Bs.
  pose proof (matchCount_bounds (suspiciousIPs d) line) as Bx.
  assert (Ha : Score ea =
               (Score e1 + 30 * matchCount (errorPatterns d) line)%Z).
  { unfold ea. apply patternLoop_Score; unfold int_min, int_max in *; lia. }
  assert (Hb : Score eb =
               (Score ea + 25 * matchCount (slowPatterns d) line)%Z).
  { unfold eb. apply patternLoop_Score; unfold int_min, int_max in *; lia. }
  assert (Hc : Score ec =
               (Score eb + 40 * matchCount (suspiciousIPs d) line)%Z).
  { unfold ec. apply patternLoop_Score; unfold int_min, int_max in *; lia. }
  assert (HL : Level ec = Level e1)
    by (unfold ec, eb, ea; now rewrite !patternLoop_Level).
  rewrite Heq.
  destruct (Score ec >=? AnomalyThreshold (config d))%Z;
    cbn [fst snd Score Level set_Message set_IsAnomaly];
    rewrite HL; lia.
Qed.

(** A score that reaches the threshold flags the entry and moves the
    counter. *)
Lemma ParseLine_threshold_reached now d line :
  (AnomalyThreshold (config d) <= Score (snd (ParseLine now d line)))%Z ->
  IsAnomaly (snd (ParseLine now d line)) = true /\
  anomalyCount (fst (ParseLine now d line)) = incr (anomalyCount d).
Proof.
  destruct (ParseLine_stages now d line)
    as (d1 & e1 & _ & _ & _ & (_ & _ & _ & _ & HA) & Heq).
  cbv zeta in Heq. rewrite Heq.
  match goal with
  | |- context [(?x >=? ?t)%Z] => destruct (Z.geb_spec x t) as [Hge|Hlt]
  end; simpl; [now rewrite HA | lia].
Qed.

(** X4: the score is never negative: it is at least the contribution of
    the level and at most that contribution plus the weights of all the
    patterns the detector holds (when that largest sum fits an [int]). *)
Theorem ParseLine_Score_range now d line :
  scoresFit d ->
  (0 <= levelBase (Level (snd (ParseLine now d line)))
     <= Score (snd (ParseLine now d line)))%Z /\
  (Score (snd (ParseLine now d line))
   <= 100 + 30 * Z.of_nat (List.length (errorPatterns d))
          + 25 * Z.of_nat (List.length (slowPatterns d))
          + 40 * Z.of_nat (List.length (suspiciousIPs d)))%Z /\
  in_range (Score (snd (ParseLine now d line))).
Proof.
  intros Hfit. pose proof (ParseLine_Score_between now d line Hfit) as Hb.
  assert (Hbase : (0 <= levelBase (Level (snd (ParseLine now d line))) <= 100)%Z)
    by (destruct (Level (snd (ParseLine now d line))); simpl; lia).
  unfold scoresFit in Hfit. unfold in_range, int_min.
  repeat split; lia.
Qed.

(** X5: with a threshold of at most 50, as in the default configuration,
    and pattern lists whose largest possible score fits an [int], every
    line classified as ERROR or FATAL is an anomaly and is counted as
    one. *)
Theorem error_lines_are_anomalies now d line :
  scoresFit d ->
  (AnomalyThreshold (config d) <= 50)%Z ->
  isErrorLevel (Level (snd (ParseLine now d line))) = true ->
  IsAnomaly (snd (ParseLine now d line)) = true /\
  anomalyCount (fst (ParseLine now d line)) = incr (anomalyCount d).
Proof.
  intros Hfit Hthr Herr. apply ParseLine_threshold_reached.
  pose proof (ParseLine_Score_between now d line Hfit) as Hb.
  destruct (Level (snd (ParseLine now d line))); try discriminate;
    simpl in Hb; lia.
Qed.

End ScoreRange.

(** ** Compiling the configured patterns *)

Section CompileAll.
Context `{GoLib}.

Lemma compileLoop_firstError patterns :
  forall regexes,
    match firstError patterns with
    | Some err => compileLoop patterns regexes = inr err
    | None =>
        exists compiled,
          compileLoop patterns regexes = inl (regexes ++ compiled)%list /\
          Forall2 compilesTo patterns compiled
    end.
Proof.
  induction patterns as [|p ps IH]; intros regexes; simpl.
  - exists []. rewrite app_nil_r. split; [reflexivity | constructor].
  - destruct (regexp_Compile p) as [re|err] eqn:Hp; [|reflexivity].
    specialize (IH (regexes ++ [re])%list).
    destruct (firstError ps) as [err|]; [exact IH|].
    destruct IH as (compiled & Hloop & Hall).
    exists (re :: compiled). rewrite Hloop, <- app_assoc. split; [reflexivity|].
    constructor; assumption.
Qed.

Lemma firstError_app (l1 l2 : list string) :
  firstError (l1 ++ l2)%list =
  match firstError l1 with Some err => Some err | None => firstError l2 end.
Proof.
  induction l1 as [|p l1 IH]; simpl; [reflexivity|].
  destruct (regexp_Compile p); [exact IH | reflexivity].
Qed.

Lemma firstError_None (patterns : list string) :
  (forall p, In p patterns -> exists re, regexp_Compile p = inl re) ->
  firstError patterns = None.
Proof.
  induction patterns as [|p ps IH]; intros Hall; simpl; [reflexivity|].
  destruct (Hall p (or_introl eq_refl)) as (re & ->).
  apply IH. intros q Hq. apply Hall. now right.
Qed.

(** X6: [CompilePatterns] returns the error of the first pattern that does
    not compile, in the order error, slow, suspicious, together with three
    [nil] slices; it returns no error when every pattern compiles. *)
Theorem CompilePatterns_error (c : Config) :
  snd (CompilePatterns c) =
    firstError
      (ErrorPatterns c ++ SlowPatterns c ++ SuspiciousPatterns c)%list /\
  (snd (CompilePatterns c) <> None ->
   fst (CompilePatterns c) = ([], [], [])).
Proof.
  rewrite !firstError_app. unfold CompilePatterns.
  pose proof (compileLoop_firstError (ErrorPatterns c) []) as H1.
  pose proof (compileLoop_firstError (SlowPatterns c) []) as H2.
  pose proof (compileLoop_firstError (SuspiciousPatterns c) []) as H3.
  destruct (firstError (ErrorPatterns c)) as [e1|].
  { rewrite H1. simpl. split; reflexivity. }
  destruct H1 as (E & -> & _).
  destruct (firstError (SlowPatterns c)) as [e2|].
  { rewrite H2. simpl. split; reflexivity. }
  destruct H2 as (S & -> & _).
  destruct (firstError (SuspiciousPatterns c)) as [e3|].
  { rewrite H3. simpl. split; reflexivity. }
  destruct H3 as (X & -> & _). simpl. split; [reflexivity | congruence].
Qed.

(** X7: when every configured pattern compiles, [CompilePatterns] returns
    one compiled pattern for each configured pattern, in the order of the
    configuration, and [NewDetectorWithConfig] gives a detector that holds
    them, with all counters at 0 and nothing reported. *)
Theorem CompilePatterns_success now (c : Config) :
  (forall p,
     In p (ErrorPatterns c ++ SlowPatterns c ++ SuspiciousPatterns c)%list ->
     exists re, regexp_Compile p = inl re) ->
  exists E S X,
    CompilePatterns c = (E, S, X, None) /\
    Forall2 compilesTo (ErrorPatterns c) E /\
    Forall2 compilesTo (SlowPatterns c) S /\
    Forall2 compilesTo (SuspiciousPatterns c) X /\
    snd (NewDetectorWithConfig now c) = None /\
    errorPatterns (fst (NewDetectorWithConfig now c)) = E /\
    slowPatterns (fst (NewDetectorWithConfig now c)) = S /\
    suspiciousIPs (fst (NewDetectorWithConfig now c)) = X /\
    config (fst (NewDetectorWithConfig now c)) = c /\
    (lineCount (fst (NewDetectorWithConfig now c)),
     errorCount (fst (NewDetectorWithConfig now c)),
     warnCount (fst (NewDetectorWithConfig now c)),
     anomalyCount (fst (NewDetectorWithConfig now c))) = (0, 0, 0, 0)%Z.
Proof.
  intros Hall.
  pose proof (compileLoop_firstError (ErrorPatterns c) []) as H1.
  pose proof (compileLoop_firstError (SlowPatterns c) []) as H2.
  pose proof (compileLoop_firstError (SuspiciousPatterns c) []) as H3.
  rewrite firstError_None in H1, H2, H3
    by (intros p Hp; apply Hall; rewrite !in_app_iff; tauto).
  destruct H1 as (E & HE & FE). destruct H2 as (S & HS & FS).
  destruct H3 as (X & HX & FX). simpl in HE, HS, HX.
  exists E, S, X.
  assert (Hc : CompilePatterns c = (E, S, X, None))
    by (unfold CompilePatterns; now rewrite HE, HS, HX).
  split; [exact Hc|]. repeat (split; [assumption|]).
  unfold NewDetectorWithConfig. rewrite Hc. simpl. repeat split.
Qed.

End CompileAll.

(** ** Runs from a new detector *)

Section Runs.
Context `{GoLib}.

Lemma NewDetectorWithConfig_fresh now cfg :
  lineCount (fst (NewDetectorWithConfig now cfg)) = 0%Z /\
  errorCount (fst (NewDetectorWithConfig now cfg)) = 0%Z /\
  warnCount (fst (NewDetectorWithConfig now cfg)) = 0%Z /\
  anomalyCount (fst (NewDetectorWithConfig now cfg)) = 0%Z /\
  config (fst (NewDetectorWithConfig now cfg)) = cfg.
Proof.
  unfold NewDetectorWithConfig.
  destruct (CompilePatterns cfg) as [[[E S] X] [err|]]; simpl; tauto.
Qed.

Lemma runEntries_In d (input : list (time_Time * string)) (e : LogEntry) :
  In e (runEntries d input) ->
  exists tl, In tl input /\ e = snd (ParseLine (fst tl) d (snd tl)).
Proof.
  revert d. induction input as [|tl input IH]; intros d; simpl; [tauto|].
  intros [<-|Hin].
  - exists tl. tauto.
  - destruct (IH _ Hin) as (tl' & Hin' & ->).
    exists tl'. split; [tauto|].
    destruct (ParseLine_keeps_setup (fst tl) d (snd tl)) as (HE & HS & HX & HC).
    apply ParseLine_entry_ext; congruence.
Qed.

Lemma countEntries_le (p q : LogEntry -> bool) (entries : list LogEntry) :
  (forall e, In e entries -> p e = true -> q e = true) ->
  (countEntries p entries <= countEntries q entries)%Z.
Proof.
  unfold countEntries. induction entries as [|e entries IH]; intros Hpq;
    simpl; [lia|].
  assert (IH' := IH (fun e' He' => Hpq e' (or_intror He'))).
  specialize (Hpq e (or_introl eq_refl)).
  destruct (p e); [rewrite Hpq by reflexivity|destruct (q e)];
    simpl List.length; lia.
Qed.

(** X8: with a threshold of at most 50, pattern lists whose largest
    possible score fits an [int] and at most [int_max] lines, the errors a
    run counts are never more than the anomalies it counts. *)
Theorem run_errors_le_anomalies now cfg (input : list (time_Time * string)) :
  scoresFit (fst (NewDetectorWithConfig now cfg)) ->
  (AnomalyThreshold cfg <= 50)%Z ->
  (Z.of_nat (List.length input) <= int_max)%Z ->
  (errorCount (parseLines (fst (NewDetectorWithConfig now cfg)) input)
   <= anomalyCount (parseLines (fst (NewDetectorWithConfig now cfg)) input))%Z.
Proof.
  intros Hfit Hthr Hlen.
  destruct (NewDetectorWithConfig_fresh now cfg) as (Z1 & Z2 & Z3 & Z4 & Zc).
  set (d0 := fst (NewDetectorWithConfig now cfg)) in *.
  destruct (parseLines_counts input d0) as (_ & HE & _ & HA);
    [rewrite Z1, Z2, Z3, Z4; lia | rewrite Z1, Z2, Z3, Z4; lia |].
  rewrite HE, HA, Z2, Z4, Zc. simpl.
  apply countEntries_le. intros e Hin Herr.
  destruct (runEntries_In _ _ _ Hin) as (tl & _ & ->).
  pose proof (ParseLine_Score_between (fst tl) d0 (snd tl) Hfit) as Hb.
  apply Z.geb_le.
  destruct (Level (snd (ParseLine (fst tl) d0 (snd tl)))); try discriminate;
    simpl in Hb; lia.
Qed.

End Runs.

(** ** The command line, continued *)

Section CommandLineMore.

(** The fields of the configuration after [ApplyToConfig]. *)
Lemma ApplyToConfig_fields (o : CLIOptions.t) (cfg : Config) :
  ErrorPatterns (ApplyToConfig o cfg) = ErrorPatterns cfg /\
  SlowPatterns (ApplyToConfig o cfg) = SlowPatterns cfg /\
  SuspiciousPatterns (ApplyToConfig o cfg) = SuspiciousPatterns cfg /\
  CustomPatterns (ApplyToConfig o cfg) = CustomPatterns cfg /\
  AnomalyThreshold (ApplyToConfig o cfg) = AnomalyThreshold cfg /\
  SlowThresholdMs (ApplyToConfig o cfg) = SlowThresholdMs cfg /\
  ExcludeComponents (ApplyToConfig o cfg) = ExcludeComponents cfg /\
  IncludeComponents (ApplyToConfig o cfg) =
    (if CLIOptions.Component o =? "" then IncludeComponents cfg
     else [CLIOptions.Component o]) /\
  ColorOutput (ApplyToConfig o cfg) =
    ColorOutput cfg && negb (CLIOptions.NoColor o) /\
  CompactOutput (ApplyToConfig o cfg) =
    CompactOutput cfg || CLIOptions.Compact o /\
  ShowDebug (ApplyToConfig o cfg) =
    ShowDebug cfg || CLIOptions.ShowAll o || CLIOptions.ShowDebug o /\
  ShowInfo (ApplyToConfig o cfg) =
    ShowInfo cfg || CLIOptions.ShowAll o || CLIOptions.ShowInfo o /\
  MinLevel (ApplyToConfig o cfg) = appliedMinLevel o (MinLevel cfg).
Proof.
  unfold ApplyToConfig, appliedMinLevel.
  destruct (CLIOptions.ShowAll o), (CLIOptions.ShowDebug o),
    (CLIOptions.ShowInfo o), (CLIOptions.NoColor o), (CLIOptions.Compact o),
    (CLIOptions.Component o =? ""), (CLIOptions.MinLevel o =? "");
    cbn;
    repeat match goal with
           | |- context [MinLevel cfg =? ?x] =>
               destruct (MinLevel cfg =? x); cbn
           end;
    rewrite ?orb_true_r, ?orb_false_r, ?andb_true_r, ?andb_false_r;
    repeat split.
Qed.

(** Case analysis on what the minimum level of the configuration is, as
    far as [ApplyToConfig] and [parseMinLevel] look at it. *)
Ltac minLevel_cases m :=
  destruct (String.eqb_spec m "INFO") as [->|?];
  [|destruct (String.eqb_spec m "WARN") as [->|?]];
  cbn;
  repeat match goal with
         | H : ?x <> ?y |- context [?x =? ?y] =>
             rewrite (proj2 (String.eqb_neq x y) H); cbn
         end.

Lemma appliedMinLevel_idempotent (o : CLIOptions.t) (m : string) :
  appliedMinLevel o (appliedMinLevel o m) = appliedMinLevel o m.
Proof.
  unfold appliedMinLevel.
  destruct (CLIOptions.ShowAll o), (CLIOptions.ShowDebug o),
    (CLIOptions.ShowInfo o), (CLIOptions.MinLevel o =? ""); cbn;
    try reflexivity; minLevel_cases m; reflexivity.
Qed.

Lemma Config_ext (c1 c2 : Config) :
  ErrorPatterns c1 = ErrorPatterns c2 ->
  SlowPatterns c1 = SlowPatterns c2 ->
  SuspiciousPatterns c1 = SuspiciousPatterns c2 ->
  CustomPatterns c1 = CustomPatterns c2 ->
  AnomalyThreshold c1 = AnomalyThreshold c2 ->
  SlowThresholdMs c1 = SlowThresholdMs c2 ->
  ShowDebug c1 = ShowDebug c2 -> ShowInfo c1 = ShowInfo c2 ->
  ColorOutput c1 = ColorOutput c2 -> CompactOutput c1 = CompactOutput c2 ->
  IncludeComponents c1 = IncludeComponents c2 ->
  ExcludeComponents c1 = ExcludeComponents c2 ->
  MinLevel c1 = MinLevel c2 ->
  c1 = c2.
Proof. destruct c1, c2; simpl; intros; subst; reflexivity. Qed.

(** X9: [ApplyToConfig] never changes the patterns, the two thresholds,
    the custom patterns or the list of excluded components; it can switch
    colours off but not on, and compact output, [ShowDebug] and [ShowInfo]
    on but not off. *)
Theorem ApplyToConfig_keeps_detection (o : CLIOptions.t) (cfg : Config) :
  ErrorPatterns (ApplyToConfig o cfg) = ErrorPatterns cfg /\
  SlowPatterns (ApplyToConfig o cfg) = SlowPatterns cfg /\
  SuspiciousPatterns (ApplyToConfig o cfg) = SuspiciousPatterns cfg /\
  CustomPatterns (ApplyToConfig o cfg) = CustomPatterns cfg /\
  AnomalyThreshold (ApplyToConfig o cfg) = AnomalyThreshold cfg /\
  SlowThresholdMs (ApplyToConfig o cfg) = SlowThresholdMs cfg /\
  ExcludeComponents (ApplyToConfig o cfg) = ExcludeComponents cfg /\
  (ColorOutput (ApplyToConfig o cfg) = true -> ColorOutput cfg = true) /\
  (CompactOutput cfg = true -> CompactOutput (ApplyToConfig o cfg) = true) /\
  (ShowDebug cfg = true -> ShowDebug (ApplyToConfig o cfg) = true) /\
  (ShowInfo cfg = true -> ShowInfo (ApplyToConfig o cfg) = true).
Proof.
  destruct (ApplyToConfig_fields o cfg)
    as (H1 & H2 & H3 & H4 & H5 & H6 & H7 & _ & H9 & H10 & H11 & H12 & _).
  repeat (split; [assumption|]).
  rewrite H9, H10, H11, H12. repeat split.
  - intros Hc. now apply andb_true_iff in Hc.
  - now intros ->.
  - now intros ->.
  - now intros ->.
Qed.

(** X10: applying the same options a second time changes nothing. *)
Theorem ApplyToConfig_idempotent (o : CLIOptions.t) (cfg : Config) :
  ApplyToConfig o (ApplyToConfig o cfg) = ApplyToConfig o cfg.
Proof.
  destruct (ApplyToConfig_fields o cfg)
    as (H1 & H2 & H3 & H4 & H5 & H6 & H7 & H8 & H9 & H10 & H11 & H12 & H13).
  destruct (ApplyToConfig_fields o (ApplyToConfig o cfg))
    as (K1 & K2 & K3 & K4 & K5 & K6 & K7 & K8 & K9 & K10 & K11 & K12 & K13).
  apply Config_ext; try congruence.
  - rewrite K11, H11.
    destruct (ShowDebug cfg), (CLIOptions.ShowAll o), (CLIOptions.ShowDebug o);
      reflexivity.
  - rewrite K12, H12.
    destruct (ShowInfo cfg), (CLIOptions.ShowAll o), (CLIOptions.ShowInfo o);
      reflexivity.
  - rewrite K9, H9.
    destruct (ColorOutput cfg), (CLIOptions.NoColor o); reflexivity.
  - rewrite K10, H10.
    destruct (CompactOutput cfg), (CLIOptions.Compact o); reflexivity.
  - rewrite K8, H8. now destruct (CLIOptions.Component o =? "").
  - rewrite K13, H13. apply appliedMinLevel_idempotent.
Qed.

Lemma parseMinLevel_appliedMinLevel (o : CLIOptions.t) (cfg : Config) :
  CLIOptions.MinLevel o = "" ->
  (LogLevel_int (parseMinLevel (ApplyToConfig o cfg))
   <= LogLevel_int (parseMinLevel cfg))%Z.
Proof.
  intros Hml. unfold parseMinLevel.
  destruct (ApplyToConfig_fields o cfg) as (_ & _ & _ & _ & _ & _ & _ & _ & _ & _ & _ & _ & ->).
  unfold appliedMinLevel. rewrite Hml.
  destruct (CLIOptions.ShowAll o), (CLIOptions.ShowDebug o),
    (CLIOptions.ShowInfo o); cbn;
    try (repeat match goal with
                | |- context [if ?b then _ else _] => destruct b
                end; simpl; lia);
    minLevel_cases (MinLevel cfg);
    repeat match goal with
           | |- context [if ?b then _ else _] => destruct b
           end; simpl; lia.
Qed.

End CommandLineMore.

(** ** The flags *)

Section Flags.

Lemma setFlag_MinLevel (o : CLIOptions.t) (f : Flag) :
  CLIOptions.MinLevel (setFlag o f) =
  match f with
  | flag_min_level v => v
  | _ => CLIOptions.MinLevel o
  end.
Proof. destruct o, f; reflexivity. Qed.

Lemma fold_setFlag_MinLevel (args : list Flag) :
  forall o,
    CLIOptions.MinLevel (fold_left setFlag args o) =
    match lastMinLevel args with
    | Some v => v
    | None => CLIOptions.MinLevel o
    end.
Proof.
  induction args as [|f args IH]; intros o; simpl; [reflexivity|].
  rewrite IH, setFlag_MinLevel.
  destruct (lastMinLevel args); [reflexivity | now destruct f].
Qed.

(** X11: the options [ParseCLI] returns carry the value of the last
    [--min-level] flag, and ["WARN"] when the flag was not given; so
    without that flag the configuration [main] works with has the minimum
    level ["WARN"], whatever the loaded configuration says and whatever
    other flags are given. *)
Theorem ParseCLI_MinLevel (args : list Flag) (loaded : option Config) :
  CLIOptions.MinLevel (ParseCLI args) =
    match lastMinLevel args with
    | Some v => v
    | None => "WARN"
    end /\
  (lastMinLevel args = None ->
   MinLevel (activeConfig (ParseCLI args) loaded) = "WARN").
Proof.
  assert (Hml : CLIOptions.MinLevel (ParseCLI args) =
                match lastMinLevel args with
                | Some v => v
                | None => "WARN"
                end)
    by (unfold ParseCLI; now rewrite fold_setFlag_MinLevel).
  split; [exact Hml|]. intros Hnone. rewrite Hnone in Hml.
  unfold activeConfig.
  destruct (ApplyToConfig_fields (ParseCLI args)
              (match loaded with
               | Some loadedCfg => loadedCfg
               | None => DefaultConfig
               end))
    as (_ & _ & _ & _ & _ & _ & _ & _ & _ & _ & _ & _ & ->).
  unfold appliedMinLevel. rewrite Hml. reflexivity.
Qed.

Lemma setFlag_comm (o : CLIOptions.t) (f g : Flag) :
  flagName f <> flagName g ->
  setFlag (setFlag o f) g = setFlag (setFlag o g) f.
Proof.
  destruct o, f, g; simpl; intros Hne; try reflexivity; congruence.
Qed.

Lemma fold_setFlag_Permutation (args args' : list Flag) :
  Permutation args args' ->
  NoDup (map flagName args) ->
  forall o, fold_left setFlag args o = fold_left setFlag args' o.
Proof.
  induction 1 as [|f l l' Hperm IH|f g l|l l' l'' H1 IH1 H2 IH2];
    intros Hnd o; simpl.
  - reflexivity.
  - simpl in Hnd. apply NoDup_cons_iff in Hnd as [_ Hnd]. now apply IH.
  - simpl in Hnd. apply NoDup_cons_iff in Hnd as [Hgf _].
    rewrite (setFlag_comm o g f); [reflexivity|].
    intros Heq. apply Hgf. left. now symmetry.
  - rewrite IH1 by assumption. apply IH2.
    eapply Permutation_NoDup; [|exact Hnd]. now apply Permutation_map.
Qed.

(** X12: the order of the flags on the command line does not matter:
    two command lines with the same flags, each flag given at most once,
    give the same options. *)
Theorem ParseCLI_order (args args' : list Flag) :
  Permutation args args' ->
  NoDup (map flagName args) ->
  ParseCLI args = ParseCLI args'.
Proof.
  intros Hperm Hnd. unfold ParseCLI.
  now apply fold_setFlag_Permutation.
Qed.

End Flags.

(** ** The filter, continued *)

Section FilterMore.
Context `{GoLib}.

(** X13: without a minimum level and a component of their own, the
    options never make the filter stricter: the minimum level does not
    rise, and every entry that was shown is still shown. *)
Theorem ApplyToConfig_never_hides (o : CLIOptions.t) (cfg : Config)
    (e : LogEntry) :
  CLIOptions.MinLevel o = "" -> CLIOptions.Component o = "" ->
  (LogLevel_int (parseMinLevel (ApplyToConfig o cfg))
   <= LogLevel_int (parseMinLevel cfg))%Z /\
  (ShouldShow cfg e = true -> ShouldShow (ApplyToConfig o cfg) e = true).
Proof.
  intros Hml Hco.
  pose proof (parseMinLevel_appliedMinLevel o cfg Hml) as Hle.
  split; [exact Hle|].
  rewrite !ShouldShow_gates.
  destruct (ApplyToConfig_fields o cfg)
    as (_ & _ & _ & _ & _ & _ & -> & -> & _).
  rewrite Hco. simpl. intros (Hlevel & Hinc & Hexc).
  repeat split; [lia | exact Hinc | exact Hexc].
Qed.

(** X14: an entry with the same raw line and a level at least as high
    passes the filter whenever the other one does. *)
Theorem ShouldShow_monotone_level (c : Config) (e e' : LogEntry) :
  Raw e = Raw e' ->
  (LogLevel_int (Level e) <= LogLevel_int (Level e'))%Z ->
  ShouldShow c e = true -> ShouldShow c e' = true.
Proof.
  intros HR HL. rewrite !ShouldShow_gates, HR.
  intros (Hlevel & Hrest). split; [lia | exact Hrest].
Qed.

(** X15: [parseMinLevel] reads back the name [String] gives a level: a
    configuration whose [MinLevel] is the name of a level has that level
    as its minimum, and lets through the levels from there on only. *)
Theorem parseMinLevel_String (c : Config) (l : LogLevel) (e : LogEntry) :
  MinLevel c = LogLevel_String l ->
  parseMinLevel c = l /\
  (ShouldShow c e = true ->
   (LogLevel_int l <= LogLevel_int (Level e))%Z).
Proof.
  intros Hm.
  assert (Hp : parseMinLevel c = l)
    by (unfold parseMinLevel; rewrite Hm; now destruct l).
  split; [exact Hp|]. rewrite ShouldShow_gates, Hp. tauto.
Qed.

End FilterMore.

(** ** The component of a line *)

Section Components.
Context `{GoLib}.

Lemma findComponent_sound (line : string) :
  forall rem pre0,
    line = pre0 ++ rem ->
    findComponent rem = [] \/
    exists pre comp,
      bracketedAt line pre comp /\
      findComponent rem = ["[" ++ comp ++ "]"; comp].
Proof.
  induction rem as [|c rem IH]; intros pre0 Hline.
  - left. reflexivity.
  - destruct (componentAt (String c rem)) as [r|] eqn:Hhere.
    + right. rewrite (findComponent_here _ _ Hhere).
      destruct (componentAt_sound _ _ Hhere)
        as (comp & post & Hne & Hcomp & Hs & ->).
      exists pre0, comp. split; [|reflexivity].
      repeat split; try assumption. exists post. now rewrite Hline, Hs.
    + rewrite (findComponent_next _ _ Hhere).
      apply (IH (pre0 ++ String c "")). now rewrite append_assoc.
Qed.

Lemma findComponent_found (comp post : string) :
  comp <> "" -> allBytes notClosing comp = true ->
  forall pre, findComponent (pre ++ "[" ++ comp ++ "]" ++ post) <> [].
Proof.
  intros Hne Hcomp. induction pre as [|c pre IH].
  - change ("" ++ "[" ++ comp ++ "]" ++ post)
      with ("[" ++ comp ++ "]" ++ post).
    rewrite (findComponent_here _ _ (componentAt_complete comp post Hne Hcomp)).
    discriminate.
  - change (String c pre ++ "[" ++ comp ++ "]" ++ post)
      with (String c (pre ++ "[" ++ comp ++ "]" ++ post)).
    destruct (componentAt (String c (pre ++ "[" ++ comp ++ "]" ++ post)))
      as [r|] eqn:Hhere.
    + rewrite (findComponent_here _ _ Hhere).
      destruct (componentAt_sound _ _ Hhere) as (? & ? & _ & _ & _ & ->).
      discriminate.
    + now rewrite (findComponent_next _ _ Hhere).
Qed.

(** What [extractComponent] returns, in terms of the line. *)
Lemma extractComponent_cases (line : string) :
  (extractComponent line = "" /\
   forall pre comp, ~ bracketedAt line pre comp) \/
  (exists pre, bracketedAt line pre (extractComponent line)).
Proof.
  unfold extractComponent. cbv zeta.
  rewrite FindStringSubmatch_componentPattern.
  unfold componentPattern_FindStringSubmatch.
  destruct (findComponent_sound line line "" eq_refl)
    as [Hnil|(pre & comp & Hb & Hf)].
  - left. rewrite Hnil. split; [reflexivity|].
    intros pre comp (Hne & Hcomp & post & Hline).
    apply (findComponent_found comp post Hne Hcomp pre). now rewrite <- Hline.
  - right. rewrite Hf. exists pre. exact Hb.
Qed.

(** X16: [extractComponent] returns the empty string exactly for the lines
    without bracketed text (an opening bracket, one or more bytes other
    than a closing bracket, a closing bracket), and otherwise a bracketed
    text of the line, which is not empty and has no closing bracket. *)
Theorem extractComponent_spec (line : string) :
  (extractComponent line = "" <->
   forall pre comp, ~ bracketedAt line pre comp) /\
  (extractComponent line <> "" ->
   exists pre, bracketedAt line pre (extractComponent line)) /\
  allBytes notClosing (extractComponent line) = true.
Proof.
  destruct (extractComponent_cases line) as [(Hnil & Hno)|(pre & Hb)].
  - rewrite Hnil. repeat split; tauto || congruence.
  - pose proof Hb as (Hne & Hcomp & _).
    repeat split; try assumption.
    + intros Hnil. congruence.
    + intros Hno. exfalso. exact (Hno _ _ Hb).
    + intros _. now exists pre.
Qed.

(** X17: with [--component], an entry is shown only if the leftmost
    bracketed text of its line is exactly that component; lines without
    bracketed text are hidden. *)
Theorem component_flag_filters (o : CLIOptions.t) (cfg : Config)
    (e : LogEntry) :
  CLIOptions.Component o <> "" ->
  ShouldShow (ApplyToConfig o cfg) e = true ->
  extractComponent (Raw e) = CLIOptions.Component o /\
  exists pre, bracketedAt (Raw e) pre (CLIOptions.Component o).
Proof.
  intros Hco Hshow. apply ShouldShow_gates in Hshow as (_ & Hinc & _).
  destruct (ApplyToConfig_fields o cfg)
    as (_ & _ & _ & _ & _ & _ & _ & Hi & _).
  apply String.eqb_neq in Hco. rewrite Hco in Hi. rewrite Hi in Hinc.
  destruct Hinc as [Hnil|[Heq|[]]]; [discriminate|].
  split; [now symmetry|].
  destruct (extractComponent_cases (Raw e)) as [(Hnil & _)|(pre & Hb)].
  - apply String.eqb_neq in Hco. congruence.
  - exists pre. now rewrite Heq.
Qed.

End Components.

(** ** The loop of [main] and its output *)

Section Loop.
Context `{GoLib}.

Lemma mainStep_filter opts cfg d acc (tl : time_Time * string) :
  mainStep opts cfg (d, acc) tl =
  (fst (ParseLine (fst tl) d (snd tl)),
   (acc ++ filter (fun e => ShouldShow cfg e && wanted opts e)
             [snd (ParseLine (fst tl) d (snd tl))])%list).
Proof.
  unfold mainStep, wanted. cbn [filter].
  destruct (ParseLine (fst tl) d (snd tl)) as [d' e]. cbn [fst snd].
  destruct (ShouldShow cfg e); cbn [negb andb];
    [|now rewrite app_nil_r].
  destruct (CLIOptions.OnlyAnomalies opts).
  - destruct (IsAnomaly e); [reflexivity | now rewrite app_nil_r].
  - destruct (IsAnomaly e || (LogLevel_int (Level e) >=? LogLevel_int WARN)%Z);
      [reflexivity | now rewrite app_nil_r].
Qed.

Lemma mainLoop_acc opts cfg (input : list (time_Time * string)) :
  forall d acc,
    fold_left (mainStep opts cfg) input (d, acc) =
    (parseLines d input,
     (acc ++ filter (fun e => ShouldShow cfg e && wanted opts e)
               (runEntries d input))%list).
Proof.
  induction input as [|tl input IH]; intros d acc.
  - simpl. now rewrite app_nil_r.
  - cbn [fold_left runEntries]. rewrite mainStep_filter, IH.
    change (parseLines d (tl :: input))
      with (parseLines (fst (ParseLine (fst tl) d (snd tl))) input).
    f_equal. rewrite <- app_assoc. f_equal. cbn [filter].
    now destruct (ShouldShow cfg _ && wanted opts _).
Qed.

(** X18: the loop of [main] hands to [Print], in the order of the input,
    exactly the entries that pass [ShouldShow] and the display rule (an
    anomaly, or WARN and above unless [--anomalies-only] is given), and
    leaves the detector as the calls of [ParseLine] alone leave it; so no
    entry below the minimum level is printed, anomaly or not. *)
Theorem mainLoop_prints opts cfg d (input : list (time_Time * string)) :
  mainLoop opts cfg d input =
    (parseLines d input,
     filter (fun e => ShouldShow cfg e && wanted opts e)
       (runEntries d input)) /\
  (forall e,
     In e (snd (mainLoop opts cfg d input)) ->
     (LogLevel_int (parseMinLevel cfg) <= LogLevel_int (Level e))%Z).
Proof.
  assert (Heq : mainLoop opts cfg d input =
                (parseLines d input,
                 filter (fun e => ShouldShow cfg e && wanted opts e)
                   (runEntries d input)))
    by (unfold mainLoop; now rewrite mainLoop_acc).
  split; [exact Heq|]. intros e. rewrite Heq. cbn [snd].
  rewrite filter_In, andb_true_iff, ShouldShow_gates. tauto.
Qed.

(** X19: when the minimum level of the configuration is WARN or higher, as
    in the default configuration, and [--anomalies-only] is not given, the
    loop prints every entry that passes [ShouldShow]: the display rule
    hides nothing more. *)
Theorem mainLoop_default_display opts cfg d
    (input : list (time_Time * string)) :
  (LogLevel_int WARN <= LogLevel_int (parseMinLevel cfg))%Z ->
  CLIOptions.OnlyAnomalies opts = false ->
  snd (mainLoop opts cfg d input) =
  filter (ShouldShow cfg) (runEntries d input).
Proof.
  intros Hmin Hall. unfold mainLoop. rewrite mainLoop_acc. cbn [snd app].
  apply filter_ext. intros e. unfold wanted. rewrite Hall.
  destruct (ShouldShow cfg e) eqn:Hs; [|reflexivity].
  apply ShouldShow_gates in Hs as (Hlevel & _).
  replace (LogLevel_int (Level e) >=? LogLevel_int WARN)%Z with true
    by (symmetry; apply Z.geb_le; lia).
  now rewrite orb_true_r.
Qed.

Lemma filter_filter {A : Type} (p q : A -> bool) (l : list A) :
  filter p (filter q l) = filter (fun x => q x && p x) l.
Proof.
  induction l as [|x l IH]; simpl; [reflexivity|].
  destruct (q x); simpl; [destruct (p x)|]; now rewrite IH.
Qed.

(** X20: with [--anomalies-only] the loop prints the anomalies among the
    entries it prints without the flag, and nothing else. *)
Theorem mainLoop_anomalies_only opts opts' cfg d
    (input : list (time_Time * string)) :
  CLIOptions.OnlyAnomalies opts = true ->
  CLIOptions.OnlyAnomalies opts' = false ->
  snd (mainLoop opts cfg d input) =
  filter IsAnomaly (snd (mainLoop opts' cfg d input)).
Proof.
  intros Honly Hall. unfold mainLoop. rewrite !mainLoop_acc. cbn [snd app].
  rewrite filter_filter. apply filter_ext. intros e. unfold wanted.
  rewrite Honly, Hall.
  destruct (ShouldShow cfg e), (IsAnomaly e),
    (LogLevel_int (Level e) >=? LogLevel_int WARN)%Z; reflexivity.
Qed.

Lemma allBytes_append (p : ascii -> bool) (a b : string) :
  allBytes p (a ++ b) = allBytes p a && allBytes p b.
Proof.
  induction a as [|x a IH]; simpl; [reflexivity|].
  now rewrite IH, andb_assoc.
Qed.

Lemma noEscape_digits (d : Decimal.uint) :
  noEscape (NilEmpty.string_of_uint d) = true.
Proof. unfold noEscape. induction d; simpl; auto. Qed.

Lemma noEscape_formatInt (z : Z) : noEscape (formatInt z) = true.
Proof.
  unfold formatInt. destruct (Z.to_int z) as [d|d]; simpl.
  - apply noEscape_digits.
  - unfold noEscape. simpl. apply noEscape_digits.
Qed.

Lemma Print_noEscape (e : LogEntry) (cfg : Config) :
  ColorOutput cfg = false -> noEscape (Message e) = true ->
  noEscape (Print e cfg) = true.
Proof.
  intros Hc Hm. unfold Print. rewrite Hc. cbn [negb]. cbv zeta.
  unfold noEscape in *. rewrite !allBytes_append, Hm.
  assert (HL : allBytes (fun c => negb (Ascii.eqb c ESC))
                 (LogLevel_String (Level e)) = true)
    by (destruct (Level e); reflexivity).
  rewrite HL.
  destruct (IsAnomaly e && negb (CompactOutput cfg)); [|reflexivity].
  rewrite !allBytes_append. fold (noEscape (formatInt (Score e))).
  now rewrite noEscape_formatInt.
Qed.

(** X21: without colours the output of the loop has no escape byte,
    provided the messages have none: neither the level tag nor the anomaly
    banner with its score brings one in. *)
Theorem stdout_noEscape (cfg : Config) (printed : list LogEntry) :
  ColorOutput cfg = false ->
  (forall e, In e printed -> noEscape (Message e) = true) ->
  noEscape (stdoutOf cfg printed) = true.
Proof.
  intros Hc. unfold stdoutOf.
  induction printed as [|e printed IH]; intros Hm; [reflexivity|].
  assert (He : noEscape (Print e cfg) = true)
    by (apply Print_noEscape; [exact Hc | apply Hm; now left]).
  assert (Hrest : noEscape
                    (String.concat "" (map (fun e => Print e cfg) printed))
                  = true)
    by (apply IH; intros e' He'; apply Hm; now right).
  cbn [map String.concat].
  destruct (map (fun e => Print e cfg) printed) as [|x xs] eqn:Hmap.
  - exact He.
  - unfold noEscape in *. rewrite !allBytes_append, He. exact Hrest.
Qed.

End Loop.

(** ** Entries that are not anomalies *)

Section Quiet.
Context `{GoLib}.

Lemma patternLoop_no_match w patterns line e :
  anyMatch patterns line = false -> patternLoop w patterns line e = e.
Proof.
  unfold anyMatch, patternLoop. revert e.
  induction patterns as [|p ps IH]; intros e; simpl; [reflexivity|].
  rewrite orb_false_iff. intros (-> & Hps). now apply IH.
Qed.

(** X22: an entry that is not flagged has exactly the contribution of its
    level as its score, below the threshold, and no pattern of the detector
    matches its line; the anomaly counter is as before. *)
Theorem ParseLine_not_anomaly now d line :
  IsAnomaly (snd (ParseLine now d line)) = false ->
  Score (snd (ParseLine now d line)) =
    levelBase (Level (snd (ParseLine now d line))) /\
  (Score (snd (ParseLine now d line)) < AnomalyThreshold (config d))%Z /\
  anomalyCount (fst (ParseLine now d line)) = anomalyCount d /\
  forall p,
    In p (errorPatterns d) \/ In p (slowPatterns d) \/ In p (suspiciousIPs d) ->
    MatchString p line = false.
Proof.
  destruct (ParseLine_stages now d line)
    as (d1 & e1 & _ & Hsc & Han & (_ & _ & _ & _ & HA) & Heq).
  cbv zeta in Heq. rewrite Heq.
  set (e3 := patternLoop 40 (suspiciousIPs d) line
               (patternLoop 25 (slowPatterns d) line
                  (patternLoop 30 (errorPatterns d) line e1))) in *.
  destruct (Z.geb_spec (Score e3) (AnomalyThreshold (config d))) as [Hge|Hlt];
    cbn [fst snd IsAnomaly Score Level set_Message set_IsAnomaly];
    [discriminate|].
  intros Hquiet.
  assert (Hany : anyMatch (errorPatterns d) line = false /\
                 anyMatch (slowPatterns d) line = false /\
                 anyMatch (suspiciousIPs d) line = false).
  { unfold e3 in Hquiet. rewrite !patternLoop_IsAnomaly, Han in Hquiet.
    simpl in Hquiet. rewrite !orb_false_iff in Hquiet. tauto. }
  destruct Hany as (He & Hs & Hx).
  assert (He3 : e3 = e1)
    by (unfold e3; now rewrite !patternLoop_no_match).
  rewrite He3 in *. repeat split; try assumption.
  intros p Hin. unfold anyMatch in He, Hs, Hx.
  destruct (MatchString p line) eqn:Hm; [exfalso|reflexivity].
  destruct Hin as [Hin|[Hin|Hin]];
    [ assert (Hex : existsb (fun p => MatchString p line) (errorPatterns d) = true)
    | assert (Hex : existsb (fun p => MatchString p line) (slowPatterns d) = true)
    | assert (Hex : existsb (fun p => MatchString p line) (suspiciousIPs d) = true) ];
    try (apply existsb_exists; exists p; tauto); congruence.
Qed.

End Quiet.

(** ** The further properties on concrete inputs *)

Section ConcreteMore.
Import LiteralEngine Samples.
#[local] Existing Instance LiteralEngine.lib.

(** X3, witness: a run over five lines. *)
Lemma run_counters_witness :
  (Z.of_nat (List.length sampleInput) <= int_max)%Z /\
  lineCount
    (parseLines (fst (NewDetectorWithConfig 0%Z literalConfig)) sampleInput)
  = 5%Z.
Proof.
  assert (Hlen : (Z.of_nat (List.length sampleInput) <= int_max)%Z)
    by (vm_compute; discriminate).
  split; [exact Hlen|].
  exact (proj1 (@run_counters lib 0%Z literalConfig sampleInput Hlen)).
Defined.

(** X4, witness. *)
Lemma ParseLine_Score_range_witness :
  scoresFit literalDetector /\
  in_range (Score (snd (ParseLine 1%Z literalDetector "cache is slow"))).
Proof.
  assert (Hfit : scoresFit literalDetector) by (vm_compute; discriminate).
  split; [exact Hfit|].
  exact (proj2 (proj2 (@ParseLine_Score_range lib 1%Z literalDetector
                         "cache is slow" Hfit))).
Defined.

(** X5, witness: a FATAL line under the threshold 40. *)
Lemma error_lines_are_anomalies_witness :
  scoresFit literalDetector /\
  (AnomalyThreshold (config literalDetector) <= 50)%Z /\
  isErrorLevel
    (Level (snd (ParseLine 1%Z literalDetector "Fatal [db] disk failure")))
  = true /\
  IsAnomaly (snd (ParseLine 1%Z literalDetector "Fatal [db] disk failure"))
  = true.
Proof.
  assert (Hfit : scoresFit literalDetector) by (vm_compute; discriminate).
  assert (Hthr : (AnomalyThreshold (config literalDetector) <= 50)%Z)
    by (vm_compute; discriminate).
  assert (Herr : isErrorLevel
                   (Level (snd (ParseLine 1%Z literalDetector
                                  "Fatal [db] disk failure"))) = true)
    by reflexivity.
  repeat (split; [assumption|]).
  exact (proj1 (@error_lines_are_anomalies lib 1%Z literalDetector
                  "Fatal [db] disk failure" Hfit Hthr Herr)).
Defined.

(** X7, witness: the four literal patterns compile. *)
Lemma CompilePatterns_success_witness :
  (forall p,
     In p (ErrorPatterns literalConfig ++ SlowPatterns literalConfig
           ++ SuspiciousPatterns literalConfig)%list ->
     exists re, regexp_Compile p = inl re) /\
  exists E S X, CompilePatterns literalConfig = (E, S, X, None).
Proof.
  assert (Hall : forall p,
             In p (ErrorPatterns literalConfig ++ SlowPatterns literalConfig
                   ++ SuspiciousPatterns literalConfig)%list ->
             exists re, regexp_Compile p = inl re).
  { simpl. intros p [<-|[<-|[<-|[<-|[]]]]]; eexists; reflexivity. }
  split; [exact Hall|].
  destruct (@CompilePatterns_success lib 0%Z literalConfig Hall)
    as (E & S & X & Hc & _).
  now exists E, S, X.
Defined.

(** X8, witness. *)
Lemma run_errors_le_anomalies_witness :
  scoresFit (fst (NewDetectorWithConfig 0%Z literalConfig)) /\
  (AnomalyThreshold literalConfig <= 50)%Z /\
  (Z.of_nat (List.length sampleInput) <= int_max)%Z /\
  (errorCount
     (parseLines (fst (NewDetectorWithConfig 0%Z literalConfig)) sampleInput)
   <= anomalyCount
        (parseLines (fst (NewDetectorWithConfig 0%Z literalConfig))
           sampleInput))%Z.
Proof.
  assert (Hfit : scoresFit (fst (NewDetectorWithConfig 0%Z literalConfig)))
    by (vm_compute; discriminate).
  assert (Hthr : (AnomalyThreshold literalConfig <= 50)%Z)
    by (vm_compute; discriminate).
  assert (Hlen : (Z.of_nat (List.length sampleInput) <= int_max)%Z)
    by (vm_compute; discriminate).
  repeat (split; [assumption|]).
  exact (@run_errors_le_anomalies lib 0%Z literalConfig sampleInput
           Hfit Hthr Hlen).
Defined.

(** X13, witness: [--debug] with an empty [--min-level]. *)
Lemma ApplyToConfig_never_hides_witness :
  CLIOptions.MinLevel (ParseCLI [flag_min_level ""; flag_debug true]) = "" /\
  CLIOptions.Component (ParseCLI [flag_min_level ""; flag_debug true]) = "" /\
  (LogLevel_int
     (parseMinLevel
        (ApplyToConfig (ParseCLI [flag_min_level ""; flag_debug true])
           DefaultConfig))
   <= LogLevel_int (parseMinLevel DefaultConfig))%Z.
Proof.
  repeat (split; [reflexivity|]).
  exact (proj1 (@ApplyToConfig_never_hides lib
                  (ParseCLI [flag_min_level ""; flag_debug true])
                  DefaultConfig sampleError eq_refl eq_refl)).
Defined.

(** X12, witness: [--all --debug] and [--debug --all]. *)
Lemma ParseCLI_order_witness :
  Permutation [flag_all true; flag_debug true]
    [flag_debug true; flag_all true] /\
  NoDup (map flagName [flag_all true; flag_debug true]) /\
  ParseCLI [flag_all true; flag_debug true] =
  ParseCLI [flag_debug true; flag_all true].
Proof.
  assert (Hperm : Permutation [flag_all true; flag_debug true]
                    [flag_debug true; flag_all true])
    by apply perm_swap.
  assert (Hnd : NoDup (map flagName [flag_all true; flag_debug true])).
  { simpl. repeat constructor; simpl; intuition discriminate. }
  repeat (split; [assumption|]).
  exact (ParseCLI_order _ _ Hperm Hnd).
Defined.

(** X14, witness. *)
Lemma ShouldShow_monotone_level_witness :
  Raw sampleWarn = Raw sampleError /\
  (LogLevel_int (Level sampleWarn) <= LogLevel_int (Level sampleError))%Z /\
  ShouldShow DefaultConfig sampleWarn = true /\
  ShouldShow DefaultConfig sampleError = true.
Proof.
  assert (HR : Raw sampleWarn = Raw sampleError) by reflexivity.
  assert (HL : (LogLevel_int (Level sampleWarn)
                <= LogLevel_int (Level sampleError))%Z)
    by (vm_compute; discriminate).
  assert (HS : ShouldShow DefaultConfig sampleWarn = true) by reflexivity.
  repeat (split; [assumption|]).
  exact (@ShouldShow_monotone_level lib DefaultConfig sampleWarn sampleError
           HR HL HS).
Defined.

(** X15, witness: the default minimum level is the name of WARN. *)
Lemma parseMinLevel_String_witness :
  MinLevel DefaultConfig = LogLevel_String WARN /\
  parseMinLevel DefaultConfig = WARN.
Proof.
  split; [reflexivity|].
  exact (proj1 (@parseMinLevel_String lib DefaultConfig WARN sampleError
                  eq_refl)).
Defined.

(** X17, witness: [--component db]. *)
Lemma component_flag_filters_witness :
  CLIOptions.Component (ParseCLI [flag_component "db"]) <> "" /\
  ShouldShow (ApplyToConfig (ParseCLI [flag_component "db"]) DefaultConfig)
    sampleError = true /\
  extractComponent (Raw sampleError) = "db".
Proof.
  assert (Hco : CLIOptions.Component (ParseCLI [flag_component "db"]) <> "")
    by discriminate.
  assert (Hs : ShouldShow
                 (ApplyToConfig (ParseCLI [flag_component "db"]) DefaultConfig)
                 sampleError = true) by reflexivity.
  repeat (split; [assumption|]).
  exact (proj1 (@component_flag_filters lib (ParseCLI [flag_component "db"])
                  DefaultConfig sampleError Hco Hs)).
Defined.

(** X19, witness: the default configuration and no flag. *)
Lemma mainLoop_default_display_witness :
  (LogLevel_int WARN <= LogLevel_int (parseMinLevel DefaultConfig))%Z /\
  CLIOptions.OnlyAnomalies (ParseCLI []) = false /\
  snd (mainLoop (ParseCLI []) DefaultConfig literalDetector sampleInput) =
  filter (ShouldShow DefaultConfig) (runEntries literalDetector sampleInput).
Proof.
  assert (Hmin : (LogLevel_int WARN
                  <= LogLevel_int (parseMinLevel DefaultConfig))%Z)
    by (vm_compute; discriminate).
  split; [exact Hmin|]. split; [reflexivity|].
  exact (@mainLoop_default_display lib (ParseCLI []) DefaultConfig
           literalDetector sampleInput Hmin eq_refl).
Defined.

(** X20, witness: with and without [--anomalies-only]. *)
Lemma mainLoop_anomalies_only_witness :
  CLIOptions.OnlyAnomalies (ParseCLI [flag_anomalies_only true]) = true /\
  CLIOptions.OnlyAnomalies (ParseCLI []) = false /\
  snd (mainLoop (ParseCLI [flag_anomalies_only true]) DefaultConfig
         literalDetector sampleInput) =
  filter IsAnomaly
    (snd (mainLoop (ParseCLI []) DefaultConfig literalDetector sampleInput)).
Proof.
  repeat (split; [reflexivity|]).
  exact (@mainLoop_anomalies_only lib (ParseCLI [flag_anomalies_only true])
           (ParseCLI []) DefaultConfig literalDetector sampleInput
           eq_refl eq_refl).
Defined.

(** X21, witness: the sample run printed without colours. *)
Lemma stdout_noEscape_witness :
  ColorOutput plainConfig = false /\
  (forall e,
     In e (snd (mainLoop (ParseCLI []) plainConfig literalDetector
                  sampleInput)) ->
     noEscape (Message e) = true) /\
  noEscape
    (stdoutOf plainConfig
       (snd (mainLoop (ParseCLI []) plainConfig literalDetector sampleInput)))
  = true.
Proof.
  assert (Hm : forall e,
             In e (snd (mainLoop (ParseCLI []) plainConfig literalDetector
                          sampleInput)) ->
             noEscape (Message e) = true).
  { assert (Hall : forallb (fun e => noEscape (Message e))
                     (snd (mainLoop (ParseCLI []) plainConfig literalDetector
                             sampleInput)) = true)
      by (vm_compute; reflexivity).
    intros e He. exact (proj1 (forallb_forall _ _) Hall e He). }
  split; [reflexivity|]. split; [exact Hm|].
  exact (@stdout_noEscape lib plainConfig _ eq_refl Hm).
Defined.

(** X22, witness: an INFO line that no pattern matches. *)
Lemma ParseLine_not_anomaly_witness :
  IsAnomaly (snd (ParseLine 4%Z literalDetector "INFO [db] started")) = false /\
  Score (snd (ParseLine 4%Z literalDetector "INFO [db] started")) = 0%Z.
Proof.
  split; [reflexivity|].
  exact (proj1 (@ParseLine_not_anomaly lib 4%Z literalDetector
                  "INFO [db] started" eq_refl)).
Defined.

(** The sample run, printed without colours: three of the five entries
    pass the default filter, two of them anomalies. *)
Example sample_stdout :
  stdoutOf plainConfig
    (snd (mainLoop (ParseCLI []) plainConfig literalDetector sampleInput)) =
  "ANOMALY (score: 80) [ERROR] 2024-01-03 10:25:01 ERROR Database connection timeout after 30s"
  ++ newline ++
  "[WARN] 2024-01-03 10:26:20 WARN Disk usage at 85%"
  ++ newline ++
  "ANOMALY (score: 100) [FATAL] Fatal [db] disk failure"
  ++ newline.
Proof. vm_compute. reflexivity. Qed.

End ConcreteMore.
